(** * Server/network attachment resource of the hcloud provider

    A shallow embedding of [hcloud/resource_hcloud_server_network.go]:
    the identity codec ("<server id>-<network id>"), the attachment
    resolver [lookupServerNetworkID] and the attach / update / read /
    delete operations, together with the properties the specification
    states about them.

    Go values are modelled as follows.
    - [int] is a 64-bit integer, written as a [Z] between [minInt] and
      [maxInt];
    - [string] is a [string] of bytes;
    - a pointer that may be nil ([*hcloud.Server], [*hcloud.Action], an
      [error]) is an [option];
    - the cloud is an oracle that answers a call from the history of
      everything that happened before it, so that a call repeated later
      may be answered differently (a conflict, then a success);
    - every call to the cloud and every [log.Printf] is recorded in a
      trace, newest event first. *)

From Stdlib Require Import ZArith List String Ascii Bool Lia.
Import ListNotations.

Local Open Scope string_scope.
Local Open Scope Z_scope.

(** ** Go's 64-bit [int] *)

Definition maxInt : Z := 9223372036854775807.
Definition minInt : Z := -9223372036854775808.

(** ** The pieces of the Go standard library the file uses *)

Module GoStrings.

Definition dash : ascii := "-"%char.
Definition plus : ascii := "+"%char.

(** [byte('0' + d)] for a decimal digit [d]. *)
Definition digitChar (d : Z) : ascii := ascii_of_nat (48 + Z.to_nat d).

(** [ch - '0'] and the test [ch > 9] on the unsigned byte: a byte below
    ['0'] wraps around to a large value. *)
Definition isDigit (ch : ascii) : bool :=
  let n := Z.of_nat (nat_of_ascii ch) in (48 <=? n) && (n <=? 57).

Definition digitVal (ch : ascii) : Z := Z.of_nat (nat_of_ascii ch) - 48.

(** The digit loop of [strconv.formatBits] in base 10: the digits of
    [u] are written from the right, in front of what is already in the
    buffer.  A 64-bit value has at most 20 digits. *)
Fixpoint formatBits (fuel : nat) (u : Z) (buf : string) : string :=
  match fuel with
  | O => buf
  | S fuel' =>
      if u <? 10 then String (digitChar u) buf
      else formatBits fuel' (u / 10) (String (digitChar (u mod 10)) buf)
  end.

(** The verb [%d] of [fmt.Sprintf] on an [int]. *)
Definition FormatInt (i : Z) : string :=
  if i <? 0 then String dash (formatBits 20 (- i) "")
  else formatBits 20 i "".

(** The digit loop of [strconv.Atoi] / [strconv.ParseUint] in base 10:
    [n = n*10 + int(ch - '0')], a syntax error on any other byte. *)
Fixpoint parseDigits (s : string) (n : Z) : option Z :=
  match s with
  | EmptyString => Some n
  | String ch rest =>
      if isDigit ch then parseDigits rest (n * 10 + digitVal ch) else None
  end.

(** [strconv.Atoi]: an optional sign, then at least one decimal digit,
    and a value that fits an [int]; [None] stands for the syntax or
    range error it returns otherwise. *)
Definition Atoi (s : string) : option Z :=
  match s with
  | EmptyString => None
  | String s0 rest =>
      let body := if (Ascii.eqb s0 dash || Ascii.eqb s0 plus)%bool then rest else s in
      match body with
      | EmptyString => None
      | _ =>
          match parseDigits body 0 with
          | None => None
          | Some u =>
              let n := if Ascii.eqb s0 dash then - u else u in
              if (minInt <=? n) && (n <=? maxInt) then Some n else None
          end
      end
  end.

(** [strings.Index(s, "-")] together with the two slices the split
    takes around it: [s[:m]] and [s[m+1:]]. *)
Fixpoint cutDash (s : string) : option (string * string) :=
  match s with
  | EmptyString => None
  | String ch rest =>
      if Ascii.eqb ch dash then Some (EmptyString, rest)
      else match cutDash rest with
           | Some (a, b) => Some (String ch a, b)
           | None => None
           end
  end.

(** [strings.SplitN(s, "-", n)]: at most [n] pieces, the last one
    holding the unsplit remainder. *)
Fixpoint SplitN (s : string) (n : nat) : list string :=
  match n with
  | O => []
  | S O => [s]
  | S n' =>
      match cutDash s with
      | None => [s]
      | Some (a, b) => a :: SplitN b n'
      end
  end.

(** No byte of [s] is a dash. *)
Fixpoint noDash (s : string) : bool :=
  match s with
  | EmptyString => true
  | String ch rest => negb (Ascii.eqb ch dash) && noDash rest
  end.

(** All the bytes of a string are decimal digits. *)
Fixpoint allDigits (s : string) : bool :=
  match s with
  | EmptyString => true
  | String ch rest => isDigit ch && allDigits rest
  end.

End GoStrings.
Import GoStrings.

Arguments digitChar : simpl never.
Arguments isDigit : simpl never.
Arguments digitVal : simpl never.
Arguments Z.div : simpl never.
Arguments Z.modulo : simpl never.
Arguments Z.mul : simpl never.

(** ** Errors *)

(** The error codes of [hcloud.Error] that the resource looks at. *)
Inductive ErrorCode :=
| ErrorCodeConflict
| ErrorCodeLocked
| ErrorCodeNotFound
| ErrorCodeServerAlreadyAttached
| ErrorCodeOther (code : string).

(** A non-nil Go [error].  [Errorf ctx e] is [fmt.Errorf(ctx + ": %v", e)],
    a new error that only keeps the text of [e]; [abortRetryError e] is
    the marker [abortRetry] puts around an error. *)
Inductive error :=
| errInvalidServerNetworkID
| HcloudError (code : ErrorCode) (message : string)
| OtherError (message : string)
| Errorf (context : string) (cause : error)
| abortRetryError (cause : error).

Definition ErrorCode_eqb (a b : ErrorCode) : bool :=
  match a, b with
  | ErrorCodeConflict, ErrorCodeConflict => true
  | ErrorCodeLocked, ErrorCodeLocked => true
  | ErrorCodeNotFound, ErrorCodeNotFound => true
  | ErrorCodeServerAlreadyAttached, ErrorCodeServerAlreadyAttached => true
  | ErrorCodeOther x, ErrorCodeOther y => String.eqb x y
  | _, _ => false
  end.

(** [hcloud.IsError(err, code)]: [err] is an [hcloud.Error] with that code. *)
Definition IsError (err : option error) (code : ErrorCode) : bool :=
  match err with
  | Some (HcloudError c _) => ErrorCode_eqb c code
  | _ => false
  end.

(** [err == errInvalidServerNetworkID]. *)
Definition isInvalidServerNetworkID (err : option error) : bool :=
  match err with
  | Some errInvalidServerNetworkID => true
  | _ => false
  end.

(** The test both retry closures make: a conflict or a locked resource. *)
Definition retryable (err : option error) : bool :=
  IsError err ErrorCodeConflict || IsError err ErrorCodeLocked.

Definition Diagnostics := list error.

(** [diag.FromErr(err)] for a non-nil [err]. *)
Definition FromErr (e : error) : Diagnostics := [e].

(** ** A state monad for the trace and for captured variables *)

Definition M (S A : Type) : Type := S -> A * S.

Definition ret {S A : Type} (a : A) : M S A := fun s => (a, s).

Definition bind {S A B : Type} (m : M S A) (k : A -> M S B) : M S B :=
  fun s => let (a, s') := m s in k a s'.

Notation "x <- m ;; k" := (bind m (fun x => k))
  (at level 61, m at next level, right associativity).
Notation "' p <- m ;; k" := (bind m (fun x => let 'p := x in k))
  (at level 61, p pattern, m at next level, right associativity).

(** ** The retrying invoker *)

(** Modelled from the spec: [abortRetry] is not part of this file.  It
    marks an error as one that ends the retry loop at once; a nil error
    stays nil, as the detach closure relies on when it passes the
    outcome of a successful call through it. *)
Definition abortRetry (err : option error) : option error :=
  match err with
  | Some e => Some (abortRetryError e)
  | None => None
  end.

(** Modelled from the spec: [retry] is not part of this file.  It runs
    the operation at most [maxTries] times: a nil result ends the loop
    with success, an error marked by [abortRetry] ends it at once with
    the marked error, any other error is tried again, and when the tries
    are used up the last error seen is returned.  The pause between two
    tries takes time only and is left out. *)
Fixpoint retryLoop {S : Type} (tries : nat) (f : M S (option error))
    (err : option error) : M S (option error) :=
  fun s =>
    match tries with
    | O => (err, s)
    | S tries' =>
        let (err', s') := f s in
        match err' with
        | None => (None, s')
        | Some (abortRetryError e) => (Some e, s')
        | Some _ => retryLoop tries' f err' s'
        end
    end.

Definition retry {S : Type} (maxTries : nat) (f : M S (option error))
    : M S (option error) :=
  retryLoop maxTries f None.

(** ** The records of the cloud and of the declared state *)

Section Resource.

(** [net.IP], with [net.ParseIP] and [IP.String] of the Go library. *)
Context {IP : Type}.
Variable ParseIP : string -> IP.
Variable IPString : IP -> string.

(** [merge.StringSlice] of the provider's [internal/merge] package. *)
Variable mergeStringSlice : list string -> list string -> list string.

(** [List] of the [schema.Set] that [d.Set] builds from a list of
    strings: the distinct strings, in the order of the set's hash codes,
    whatever order and repetitions the list had. *)
Variable setList : list string -> list string.

(** The provider's retry bound. *)
Variable defaultMaxRetries : nat.

Record Network := { Network_ID : Z }.

Record ServerPrivateNet := {
  PrivateNet_Network : Network;
  PrivateNet_IP : IP;
  PrivateNet_Aliases : list IP;
  PrivateNet_MACAddress : string
}.

Record Server := {
  Server_ID : Z;
  Server_PrivateNet : list ServerPrivateNet
}.

Record Action := { Action_ID : Z }.

Record ServerAttachToNetworkOpts := {
  Attach_Network : option Network;
  Attach_IP : IP;
  Attach_AliasIPs : list IP
}.

Record ServerChangeAliasIPsOpts := {
  ChangeAlias_Network : option Network;
  ChangeAlias_AliasIPs : list IP
}.

Record ServerDetachFromNetworkOpts := {
  Detach_Network : option Network
}.

(** The lines the resource writes with [log.Printf]. *)
Inductive LogLine :=
| WarnInvalidID (id : string) (err : option error)
| WarnServerNotFound (id : string)
| WarnNetworkNotFound (id : string)
| WarnAttachmentNotFound (id : string)
| InfoAlreadyAttached (serverID networkID : Z).

(** What the resource does to the outside world. *)
Inductive Event :=
| CallServerGetByID (id : Z)
| CallNetworkGetByID (id : Z)
| CallAttachToNetwork (srv : option Server) (opts : ServerAttachToNetworkOpts)
| CallChangeAliasIPs (srv : option Server) (opts : ServerChangeAliasIPsOpts)
| CallDetachFromNetwork (srv : option Server) (opts : ServerDetachFromNetworkOpts)
| CallWaitForNetworkAction (a : option Action) (nw : option Network)
| Log (line : LogLine).

(** Newest event first. *)
Definition Trace := list Event.

(** [*hcloud.Client]: each operation answers from the history of the
    events before it.  [Action_Wait] is the wait behind
    [waitForNetworkAction]. *)
Record Client := {
  Server_GetByID : Trace -> Z -> option Server * option error;
  Network_GetByID : Trace -> Z -> option Network * option error;
  Server_AttachToNetwork :
    Trace -> option Server -> ServerAttachToNetworkOpts -> option Action * option error;
  Server_ChangeAliasIPs :
    Trace -> option Server -> ServerChangeAliasIPsOpts -> option Action * option error;
  Server_DetachFromNetwork :
    Trace -> option Server -> ServerDetachFromNetworkOpts -> option Action * option error;
  Action_Wait : Trace -> option Action -> option Network -> option error
}.

(** [*schema.ResourceData]: the id and the fields of the schema.
    [alias_ips] is a [schema.TypeSet]: the field holds what [List] of
    the set behind [d.Get("alias_ips")] returns, the listing of the
    stored set.  [alias_ips_changed] is [d.HasChange("alias_ips")]. *)
Record ResourceData := {
  Id : string;
  network_id : Z;
  subnet_id : string;
  server_id : Z;
  ip : string;
  alias_ips : list string;
  mac_address : string;
  alias_ips_changed : bool
}.

Definition SetId (d : ResourceData) (v : string) : ResourceData :=
  {| Id := v; network_id := network_id d; subnet_id := subnet_id d;
     server_id := server_id d; ip := ip d; alias_ips := alias_ips d;
     mac_address := mac_address d; alias_ips_changed := alias_ips_changed d |}.

Definition Set_ip (d : ResourceData) (v : string) : ResourceData :=
  {| Id := Id d; network_id := network_id d; subnet_id := subnet_id d;
     server_id := server_id d; ip := v; alias_ips := alias_ips d;
     mac_address := mac_address d; alias_ips_changed := alias_ips_changed d |}.

(** [d.Set("alias_ips", v)]: the list becomes a set, and only the
    listing of that set can be read back. *)
Definition Set_alias_ips (d : ResourceData) (v : list string) : ResourceData :=
  {| Id := Id d; network_id := network_id d; subnet_id := subnet_id d;
     server_id := server_id d; ip := ip d; alias_ips := setList v;
     mac_address := mac_address d; alias_ips_changed := alias_ips_changed d |}.

Definition Set_mac_address (d : ResourceData) (v : string) : ResourceData :=
  {| Id := Id d; network_id := network_id d; subnet_id := subnet_id d;
     server_id := server_id d; ip := ip d; alias_ips := alias_ips d;
     mac_address := v; alias_ips_changed := alias_ips_changed d |}.

Definition Set_subnet_id (d : ResourceData) (v : string) : ResourceData :=
  {| Id := Id d; network_id := network_id d; subnet_id := v;
     server_id := server_id d; ip := ip d; alias_ips := alias_ips d;
     mac_address := mac_address d; alias_ips_changed := alias_ips_changed d |}.

Definition Set_network_id (d : ResourceData) (v : Z) : ResourceData :=
  {| Id := Id d; network_id := v; subnet_id := subnet_id d;
     server_id := server_id d; ip := ip d; alias_ips := alias_ips d;
     mac_address := mac_address d; alias_ips_changed := alias_ips_changed d |}.

Definition Set_server_id (d : ResourceData) (v : Z) : ResourceData :=
  {| Id := Id d; network_id := network_id d; subnet_id := subnet_id d;
     server_id := v; ip := ip d; alias_ips := alias_ips d;
     mac_address := mac_address d; alias_ips_changed := alias_ips_changed d |}.

(** ** Calls to the cloud, recorded in the trace *)

Variable client : Client.

Definition logPrintf (line : LogLine) : M Trace unit :=
  fun h => (tt, Log line :: h).

Definition ServerGetByID (id : Z) : M Trace (option Server * option error) :=
  fun h => (Server_GetByID client h id, CallServerGetByID id :: h).

Definition NetworkGetByID (id : Z) : M Trace (option Network * option error) :=
  fun h => (Network_GetByID client h id, CallNetworkGetByID id :: h).

Definition AttachToNetwork (srv : option Server) (opts : ServerAttachToNetworkOpts)
    : M Trace (option Action * option error) :=
  fun h => (Server_AttachToNetwork client h srv opts, CallAttachToNetwork srv opts :: h).

Definition ChangeAliasIPs (srv : option Server) (opts : ServerChangeAliasIPsOpts)
    : M Trace (option Action * option error) :=
  fun h => (Server_ChangeAliasIPs client h srv opts, CallChangeAliasIPs srv opts :: h).

Definition DetachFromNetwork (srv : option Server) (opts : ServerDetachFromNetworkOpts)
    : M Trace (option Action * option error) :=
  fun h => (Server_DetachFromNetwork client h srv opts, CallDetachFromNetwork srv opts :: h).

(** Modelled from the spec: [waitForNetworkAction] is not part of this
    file.  It blocks until the action has ended and reports its
    failure as an error. *)
Definition waitForNetworkAction (a : option Action) (nw : option Network)
    : M Trace (option error) :=
  fun h => (Action_Wait client h a nw, CallWaitForNetworkAction a nw :: h).

(** ** The identity codec *)

(** [generateServerNetworkID]: [fmt.Sprintf("%d-%d", server.ID, network.ID)]. *)
Definition generateServerNetworkID (server : Server) (network : Network) : string :=
  FormatInt (Server_ID server) ++ "-" ++ FormatInt (Network_ID network).

(** ** The attachment resolver *)

(** The four named results of [lookupServerNetworkID]. *)
Record Lookup := {
  server : option Server;
  network : option Network;
  serverPrivateNet : option ServerPrivateNet;
  err : option error
}.

(** The loop over [server.PrivateNet]: the first entry of the network. *)
Fixpoint findPrivateNet (pns : list ServerPrivateNet) (nw : Network)
    : option ServerPrivateNet :=
  match pns with
  | [] => None
  | pn :: rest =>
      if Network_ID (PrivateNet_Network pn) =? Network_ID nw then Some pn
      else findPrivateNet rest nw
  end.

Definition lookupServerNetworkID (terraformID : string) : M Trace Lookup :=
  let invalid srv :=
    ret {| server := srv; network := None; serverPrivateNet := None;
           err := Some errInvalidServerNetworkID |} in
  if String.eqb terraformID "" then invalid None
  else
    match SplitN terraformID 2 with
    | [part0; part1] =>
        match Atoi part0 with
        | None => invalid None
        | Some serverID =>
            '(srv, e) <- ServerGetByID serverID ;;
            match e with
            | Some _ => invalid srv
            | None =>
                match srv with
                | None => invalid srv
                | Some s =>
                    match Atoi part1 with
                    | None => invalid srv
                    | Some networkID =>
                        '(nw, e') <- NetworkGetByID networkID ;;
                        match nw with
                        | None => invalid srv
                        | Some n =>
                            ret {| server := srv; network := nw;
                                   serverPrivateNet := findPrivateNet (Server_PrivateNet s) n;
                                   err := e' |}
                        end
                    end
                end
            end
        end
    | _ => invalid None
    end.

(** The decoding steps of [lookupServerNetworkID] on their own: the
    empty test, the split and the two [strconv.Atoi]. *)
Definition decode (terraformID : string) : option (Z * Z) :=
  if String.eqb terraformID "" then None
  else
    match SplitN terraformID 2 with
    | [part0; part1] =>
        match Atoi part0, Atoi part1 with
        | Some serverID, Some networkID => Some (serverID, networkID)
        | _, _ => None
        end
    | _ => None
    end.

(** ** Read *)

Definition setServerNetworkSchema (d : ResourceData) (srv : Server) (nw : Network)
    (pn : ServerPrivateNet) : ResourceData :=
  let d := SetId d (generateServerNetworkID srv nw) in
  let d := Set_ip d (IPString (PrivateNet_IP pn)) in
  let aliasIPs := alias_ips d in
  let hcAliasIPs := map IPString (PrivateNet_Aliases pn) in
  let d := Set_alias_ips d (mergeStringSlice aliasIPs hcAliasIPs) in
  let d := Set_mac_address d (PrivateNet_MACAddress pn) in
  let d := if String.eqb (subnet_id d) "" then Set_network_id d (Network_ID nw)
           else Set_subnet_id d (subnet_id d) in
  Set_server_id d (Server_ID srv).

Definition resourceServerNetworkRead (d : ResourceData)
    : M Trace (Diagnostics * ResourceData) :=
  r <- lookupServerNetworkID (Id d) ;;
  if isInvalidServerNetworkID (err r) then
    _ <- logPrintf (WarnInvalidID (Id d) (err r)) ;;
    ret ([], SetId d "")
  else
    match err r with
    | Some e => ret (FromErr e, d)
    | None =>
        match server r with
        | None =>
            _ <- logPrintf (WarnServerNotFound (Id d)) ;;
            ret ([], SetId d "")
        | Some srv =>
            match network r with
            | None =>
                _ <- logPrintf (WarnNetworkNotFound (Id d)) ;;
                ret ([], SetId d "")
            | Some nw =>
                match serverPrivateNet r with
                | None =>
                    _ <- logPrintf (WarnAttachmentNotFound (Id d)) ;;
                    ret ([], SetId d "")
                | Some pn =>
                    let d := SetId d (generateServerNetworkID srv nw) in
                    ret ([], setServerNetworkSchema d srv nw pn)
                end
            end
        end
    end.

(** ** Update *)

Definition resourceServerNetworkUpdate (d : ResourceData)
    : M Trace (Diagnostics * ResourceData) :=
  r <- lookupServerNetworkID (Id d) ;;
  if isInvalidServerNetworkID (err r) then
    _ <- logPrintf (WarnInvalidID (Id d) (err r)) ;;
    ret ([], SetId d "")
  else
    match err r with
    | Some e => ret (FromErr e, d)
    | None =>
        match server r with
        | None =>
            _ <- logPrintf (WarnServerNotFound (Id d)) ;;
            ret ([], SetId d "")
        | Some _ =>
            match network r with
            | None =>
                _ <- logPrintf (WarnNetworkNotFound (Id d)) ;;
                ret ([], SetId d "")
            | Some _ =>
                if alias_ips_changed d then
                  let opts := {| ChangeAlias_Network := network r;
                                 ChangeAlias_AliasIPs := map ParseIP (alias_ips d) |} in
                  '(action, e) <- ChangeAliasIPs (server r) opts ;;
                  match e with
                  | Some e => ret (FromErr e, d)
                  | None =>
                      e <- waitForNetworkAction action (network r) ;;
                      match e with
                      | Some e => ret (FromErr e, d)
                      | None => resourceServerNetworkRead d
                      end
                  end
                else resourceServerNetworkRead d
            end
        end
    end.

(** ** Delete *)

(** The closure handed to [retry]: one detach call, whose action lands
    in the captured variable [action]. *)
Definition detachAttempt (srv : option Server) (nw : option Network)
    : M (option Action * Trace) (option error) :=
  fun '(_, h) =>
    let '((action, e), h') :=
      DetachFromNetwork srv {| Detach_Network := nw |} h in
    (if retryable e then e else abortRetry e, (action, h')).

Definition resourceServerNetworkDelete (d : ResourceData)
    : M Trace (Diagnostics * ResourceData) :=
  r <- lookupServerNetworkID (Id d) ;;
  match err r with
  | Some _ =>
      _ <- logPrintf (WarnInvalidID (Id d) (err r)) ;;
      ret ([], SetId d "")
  | None =>
      fun h =>
        let '(e, (action, h)) :=
          retry defaultMaxRetries (detachAttempt (server r) (network r)) (None, h) in
        if IsError e ErrorCodeNotFound then ([], d, h)
        else
          match e with
          | Some e => (FromErr e, d, h)
          | None =>
              (e <- waitForNetworkAction action (network r) ;;
               match e with
               | Some e => ret (FromErr e, d)
               | None => ret ([], d)
               end) h
          end
  end.

(** ** Attach *)

(** The closure handed to [retry]: one attach call, whose action lands
    in the captured variable [a]. *)
Definition attachAttempt (srv : option Server) (opts : ServerAttachToNetworkOpts)
    : M (option Action * Trace) (option error) :=
  fun '(_, h) =>
    let '((a, e), h') := AttachToNetwork srv opts h in
    (if retryable e then e
     else match e with
          | Some _ => abortRetry e
          | None => None
          end,
     (a, h')).

Definition attachServerToNetwork (srv : Server) (nw : Network) (ip : IP)
    (aliasIPs : list IP) : M Trace (option error) :=
  fun h =>
    let opts := {| Attach_Network := Some nw; Attach_IP := ip;
                   Attach_AliasIPs := aliasIPs |} in
    let '(e, (a, h)) :=
      retry defaultMaxRetries (attachAttempt (Some srv) opts) (None, h) in
    if IsError e ErrorCodeServerAlreadyAttached then
      (_ <- logPrintf (InfoAlreadyAttached (Server_ID srv) (Network_ID nw)) ;;
       ret None) h
    else
      match e with
      | Some e => (Some (Errorf "attach server to network" e), h)
      | None =>
          (e <- waitForNetworkAction a (Some nw) ;;
           match e with
           | Some e => ret (Some (Errorf "attach server to network" e))
           | None => ret None
           end) h
      end.

End Resource.

(** ** The resolver's answer on every failing path *)

(** The sentinel, with whatever the server fetch had returned. *)
Definition invalidID {IP : Type} (srv : option (@Server IP)) : @Lookup IP :=
  {| server := srv; network := None; serverPrivateNet := None;
     err := Some errInvalidServerNetworkID |}.

(** ** The common shape of the two retry closures *)

(** One call to the cloud, answered by [ask] and recorded as [ev]; the
    action lands in the captured variable, and the error goes back to
    [retry] as it is when it is a conflict or a lock, marked by
    [abortRetry] otherwise. *)
Definition attemptOf {IP : Type} (ask : @Trace IP -> option (@Action) * option error)
    (ev : @Event IP) : M (option Action * @Trace IP) (option error) :=
  fun '(_, h) =>
    let '(a, e) := ask h in
    (if retryable e then e else abortRetry e, (a, ev :: h)).

(** [j] copies of the event [ev] in front of the history [h]. *)
Definition after {IP : Type} (j : nat) (ev : @Event IP) (h : Trace) : Trace :=
  (repeat ev j ++ h)%list.

(** No line about a missing server or a missing network in the trace. *)
Definition isGoneLine {IP : Type} (e : @Event IP) : bool :=
  match e with
  | Log (WarnServerNotFound _) => true
  | Log (WarnNetworkNotFound _) => true
  | _ => false
  end.

Definition isWait {IP : Type} (e : @Event IP) : bool :=
  match e with
  | CallWaitForNetworkAction _ _ => true
  | _ => false
  end.

Definition isAttach {IP : Type} (e : @Event IP) : bool :=
  match e with
  | CallAttachToNetwork _ _ => true
  | _ => false
  end.

Definition isChangeAlias {IP : Type} (e : @Event IP) : bool :=
  match e with
  | CallChangeAliasIPs _ _ => true
  | _ => false
  end.

Definition isDetach {IP : Type} (e : @Event IP) : bool :=
  match e with
  | CallDetachFromNetwork _ _ => true
  | _ => false
  end.

Definition countEvents {IP : Type} (p : @Event IP -> bool) (h : Trace) : nat :=
  List.length (filter p h).

(** ** A scripted cloud for concrete runs *)

(** A cloud whose servers and networks are fixed and whose mutating
    calls are answered by position: the [n]-th attach (change, detach,
    wait) of a run gets the [n]-th answer of its script. *)
Record Script := {
  script_servers : Z -> option (@Server string) * option error;
  script_networks : Z -> option Network * option error;
  script_attach : nat -> option Action * option error;
  script_change : nat -> option Action * option error;
  script_detach : nat -> option Action * option error;
  script_wait : nat -> option error
}.

Definition scriptedClient (s : Script) : @Client string := {|
  Server_GetByID := fun _ id => script_servers s id;
  Network_GetByID := fun _ id => script_networks s id;
  Server_AttachToNetwork := fun h _ _ => script_attach s (countEvents isAttach h);
  Server_ChangeAliasIPs := fun h _ _ => script_change s (countEvents isChangeAlias h);
  Server_DetachFromNetwork := fun h _ _ => script_detach s (countEvents isDetach h);
  Action_Wait := fun h _ _ => script_wait s (countEvents isWait h)
|}.

Definition network100 : Network := {| Network_ID := 100 |}.

Definition privateNet100 : @ServerPrivateNet string := {|
  PrivateNet_Network := network100;
  PrivateNet_IP := "10.0.0.2";
  PrivateNet_Aliases := ["10.0.0.5"];
  PrivateNet_MACAddress := "86:00:00:2a:7b:01"
|}.

(** Server 5, attached to network 100. *)
Definition server5 : @Server string := {|
  Server_ID := 5;
  Server_PrivateNet := [privateNet100]
|}.

(** Server 7, attached to no network. *)
Definition server7 : @Server string := {|
  Server_ID := 7;
  Server_PrivateNet := []
|}.

(** Server 12, attached to no network. *)
Definition server12 : @Server string := {|
  Server_ID := 12;
  Server_PrivateNet := []
|}.

Definition theServers (id : Z) : option (@Server string) * option error :=
  if id =? 5 then (Some server5, None)
  else if id =? 7 then (Some server7, None)
  else if id =? 12 then (Some server12, None)
  else (None, None).

Definition theNetworks (id : Z) : option Network * option error :=
  if id =? 100 then (Some network100, None) else (None, None).

Definition action1 : Action := {| Action_ID := 1 |}.

Definition conflict : error := HcloudError ErrorCodeConflict "conflict".
Definition locked : error := HcloudError ErrorCodeLocked "locked".
Definition notFound : error := HcloudError ErrorCodeNotFound "not found".
Definition alreadyAttached : error :=
  HcloudError ErrorCodeServerAlreadyAttached "server already attached".
Definition notAttached : error :=
  HcloudError (ErrorCodeOther "server_not_attached") "server not attached".

(** Every mutating call succeeds at once. *)
Definition calm : Script := {|
  script_servers := theServers;
  script_networks := theNetworks;
  script_attach := fun _ => (Some action1, None);
  script_change := fun _ => (Some action1, None);
  script_detach := fun _ => (Some action1, None);
  script_wait := fun _ => None
|}.

(** The first [busy] mutating calls of each kind meet a conflict, the
    later ones are answered by [final]. *)
Definition busyThen (busy : nat) (final : option Action * option error) : Script := {|
  script_servers := theServers;
  script_networks := theNetworks;
  script_attach := fun n => if (n <? busy)%nat then (None, Some conflict) else final;
  script_change := fun n => if (n <? busy)%nat then (None, Some conflict) else final;
  script_detach := fun n => if (n <? busy)%nat then (None, Some conflict) else final;
  script_wait := fun _ => None
|}.

(** A stand-in for the listing of a set in concrete runs: the distinct
    strings, here in the order of their first occurrence (the real set
    lists them by hash code). *)
Definition setOf (l : list string) : list string := nodup string_dec l.

(** The first [busy] mutating calls of each kind find the resource
    locked, the later ones are answered by [final]. *)
Definition lockedThen (busy : nat) (final : option Action * option error) : Script := {|
  script_servers := theServers;
  script_networks := theNetworks;
  script_attach := fun n => if (n <? busy)%nat then (None, Some locked) else final;
  script_change := fun n => if (n <? busy)%nat then (None, Some locked) else final;
  script_detach := fun n => if (n <? busy)%nat then (None, Some locked) else final;
  script_wait := fun _ => None
|}.

Definition forbidden : error :=
  HcloudError (ErrorCodeOther "forbidden") "forbidden".

(** The declared state of the attachment of server [sid] to network 100. *)
Definition declared (id : string) (sid : Z) (changed : bool) : ResourceData := {|
  Id := id;
  network_id := 100;
  subnet_id := "";
  server_id := sid;
  ip := "10.0.0.2";
  alias_ips := ["10.0.0.5"; "10.0.0.6"];
  mac_address := "";
  alias_ips_changed := changed
|}.

(** Modelled from the spec: [merge.StringSlice] is not part of this
    file.  It keeps the declared entries the cloud still has, in their
    declared order, and appends the entries only the cloud has, in the
    cloud's order. *)
Definition mergeSlices (declaredIPs cloudIPs : list string) : list string :=
  (filter (fun x => existsb (String.eqb x) cloudIPs) declaredIPs ++
   filter (fun x => negb (existsb (String.eqb x) declaredIPs)) cloudIPs)%list.

(** ** Create *)

Section Creation.

Context {IP : Type}.
Variable ParseIP : string -> IP.
Variable IPString : IP -> string.
Variable mergeStringSlice : list string -> list string -> list string.
Variable setList : list string -> list string.
Variable defaultMaxRetries : nat.

(** [parseNetworkSubnetID] of the provider's subnet resource: the
    network identifier inside a subnet identifier, or an error. *)
Variable parseNetworkSubnetID : string -> Z * option error.

Variable client : @Client IP.

(** [diag.Errorf] with the text of the validation in create. *)
Definition errEitherNetworkOrSubnet : error :=
  OtherError "either network_id or subnet_id must be set".

(** [d.GetOk] reports a field as set when it holds a non-zero value. *)
Definition nwIDSet (d : ResourceData) : bool := negb (network_id d =? 0).
Definition snIDSet (d : ResourceData) : bool := negb (String.eqb (subnet_id d) "").

Definition resourceServerNetworkCreate (d : ResourceData)
    : M Trace (Diagnostics * ResourceData) :=
  let ip := ParseIP (ip d) in
  if (nwIDSet d && snIDSet d) || (negb (nwIDSet d) && negb (snIDSet d)) then
    ret ([errEitherNetworkOrSubnet], d)
  else
    let '(networkID, e) :=
      if snIDSet d then parseNetworkSubnetID (subnet_id d)
      else (network_id d, None) in
    match e with
    | Some e => ret (FromErr e, d)
    | None =>
        let srv := {| Server_ID := server_id d; Server_PrivateNet := [] |} in
        let nw := {| Network_ID := networkID |} in
        let aliasIPs := map ParseIP (alias_ips d) in
        e <- attachServerToNetwork defaultMaxRetries client srv nw ip aliasIPs ;;
        match e with
        | Some e => ret (FromErr e, d)
        | None =>
            resourceServerNetworkRead IPString mergeStringSlice setList client
              (SetId d (generateServerNetworkID srv nw))
        end
    end.

End Creation.

(** ** Kinds of events *)

(** A call that changes the cloud or waits for such a change. *)
Definition isMutation {IP : Type} (e : @Event IP) : bool :=
  match e with
  | CallAttachToNetwork _ _ => true
  | CallChangeAliasIPs _ _ => true
  | CallDetachFromNetwork _ _ => true
  | CallWaitForNetworkAction _ _ => true
  | _ => false
  end.

(** A fetch of a server or of a network. *)
Definition isFetch {IP : Type} (e : @Event IP) : bool :=
  match e with
  | CallServerGetByID _ => true
  | CallNetworkGetByID _ => true
  | _ => false
  end.

(** ** More of the scripted cloud *)

(** Modelled from the spec: [parseNetworkSubnetID] is not part of this
    file.  A subnet identifier is "<network id>-<subnet address>"; the
    address is not looked at here. *)
Definition parseSubnet (s : string) : Z * option error :=
  match cutDash s with
  | Some (part0, _) =>
      match Atoi part0 with
      | Some id => (id, None)
      | None => (0, Some (OtherError "invalid network subnet id"))
      end
  | None => (0, Some (OtherError "invalid network subnet id"))
  end.

(** Server 5 once more, with a second entry for network 100 behind the
    first and an entry for network 200 in front. *)
Definition network200 : Network := {| Network_ID := 200 |}.

Definition privateNet200 : @ServerPrivateNet string := {|
  PrivateNet_Network := network200;
  PrivateNet_IP := "10.1.0.2";
  PrivateNet_Aliases := [];
  PrivateNet_MACAddress := "86:00:00:2a:7b:02"
|}.

Definition privateNet100b : @ServerPrivateNet string := {|
  PrivateNet_Network := network100;
  PrivateNet_IP := "10.0.0.3";
  PrivateNet_Aliases := [];
  PrivateNet_MACAddress := "86:00:00:2a:7b:03"
|}.

(** The wait for the action fails. *)
Definition waitFails : error := OtherError "action failed".

Definition calmButWaitFails : Script := {|
  script_servers := theServers;
  script_networks := theNetworks;
  script_attach := fun _ => (Some action1, None);
  script_change := fun _ => (Some action1, None);
  script_detach := fun _ => (Some action1, None);
  script_wait := fun _ => Some waitFails
|}.

(** A declared state that names its network through a subnet. *)
Definition declaredSubnet (sid : Z) (subnet : string) : ResourceData := {|
  Id := "";
  network_id := 0;
  subnet_id := subnet;
  server_id := sid;
  ip := "10.0.0.2";
  alias_ips := ["10.0.0.5"];
  mac_address := "";
  alias_ips_changed := false
|}.

(** Server 8, attached to network 200 and twice to network 100. *)
Definition server8 : @Server string := {|
  Server_ID := 8;
  Server_PrivateNet := [privateNet200; privateNet100; privateNet100b]
|}.

Definition crowded : Script := {|
  script_servers := fun id => if id =? 8 then (Some server8, None) else theServers id;
  script_networks := theNetworks;
  script_attach := fun _ => (Some action1, None);
  script_change := fun _ => (Some action1, None);
  script_detach := fun _ => (Some action1, None);
  script_wait := fun _ => None
|}.

(** * Properties *)

(** ** The Go library pieces on concrete inputs *)

Example FormatInt_5 : FormatInt 5 = "5".
Proof. reflexivity. Qed.

Example FormatInt_max : FormatInt maxInt = "9223372036854775807".
Proof. reflexivity. Qed.

Example FormatInt_neg : FormatInt (-120) = "-120".
Proof. reflexivity. Qed.

Example Atoi_plus : Atoi "+17" = Some 17.
Proof. reflexivity. Qed.

Example Atoi_range : Atoi "9223372036854775808" = None.
Proof. reflexivity. Qed.

Example Atoi_min : Atoi "-9223372036854775808" = Some minInt.
Proof. reflexivity. Qed.

Example SplitN_three : SplitN "12-34-56" 2 = ["12"; "34-56"].
Proof. reflexivity. Qed.

Example SplitN_empty : SplitN "" 2 = [""].
Proof. reflexivity. Qed.

(** ** Decimal digits *)

Lemma digit_cases (d : Z) :
  0 <= d < 10 ->
  d = 0 \/ d = 1 \/ d = 2 \/ d = 3 \/ d = 4 \/
  d = 5 \/ d = 6 \/ d = 7 \/ d = 8 \/ d = 9.
Proof. lia. Qed.

Ltac each_digit d H :=
  destruct (digit_cases d H) as [->|[->|[->|[->|[->|[->|[->|[->|[->| ->]]]]]]]]];
  reflexivity.

Lemma isDigit_digitChar (d : Z) : 0 <= d < 10 -> isDigit (digitChar d) = true.
Proof. intros H. each_digit d H. Qed.

Lemma digitVal_digitChar (d : Z) : 0 <= d < 10 -> digitVal (digitChar d) = d.
Proof. intros H. each_digit d H. Qed.

Lemma isDigit_not_dash (ch : ascii) : isDigit ch = true -> Ascii.eqb ch dash = false.
Proof.
  intros H. destruct (Ascii.eqb_spec ch dash) as [->|]; [discriminate H|reflexivity].
Qed.

Lemma isDigit_not_plus (ch : ascii) : isDigit ch = true -> Ascii.eqb ch plus = false.
Proof.
  intros H. destruct (Ascii.eqb_spec ch plus) as [->|]; [discriminate H|reflexivity].
Qed.

Lemma allDigits_noDash (s : string) : allDigits s = true -> noDash s = true.
Proof.
  induction s as [|ch rest IH]; cbn [allDigits noDash]; [reflexivity|].
  intros H. apply andb_prop in H as [Hd Hr].
  rewrite (isDigit_not_dash _ Hd), (IH Hr). reflexivity.
Qed.

Ltac step_strings :=
  cbn [allDigits noDash parseDigits formatBits append andb orb negb].

(** What [formatBits] writes is a non-empty run of digits in front of
    the buffer. *)
Lemma allDigits_snoc (ds : string) (d : Z) :
  allDigits ds = true -> 0 <= d < 10 ->
  allDigits (ds ++ String (digitChar d) EmptyString) = true.
Proof.
  intros Hds Hd. induction ds as [|c ds IH]; step_strings.
  - rewrite isDigit_digitChar by exact Hd. reflexivity.
  - cbn [allDigits] in Hds. apply andb_prop in Hds as [Hc Hds].
    rewrite Hc, (IH Hds). reflexivity.
Qed.

Lemma append_snoc (ds buf : string) (c : ascii) :
  ((ds ++ String c EmptyString) ++ buf = ds ++ String c buf)%string.
Proof. induction ds as [|x ds IH]; cbn [append]; [reflexivity|]. now rewrite IH. Qed.

Lemma formatBits_digits (fuel : nat) : forall u buf,
  0 <= u ->
  exists ch ds,
    formatBits (S fuel) u buf = (String ch ds ++ buf)%string /\
    allDigits (String ch ds) = true.
Proof.
  induction fuel as [|fuel IH]; intros u buf Hu.
  - cbn [formatBits]. destruct (u <? 10) eqn:E.
    + apply Z.ltb_lt in E. exists (digitChar u), EmptyString. split; [reflexivity|].
      step_strings. rewrite isDigit_digitChar by lia. reflexivity.
    + exists (digitChar (u mod 10)), EmptyString. split; [reflexivity|].
      step_strings. rewrite isDigit_digitChar; [reflexivity|].
      apply Z.mod_pos_bound. lia.
  - change (formatBits (S (S fuel)) u buf)
      with (if u <? 10 then String (digitChar u) buf
            else formatBits (S fuel) (u / 10) (String (digitChar (u mod 10)) buf)).
    destruct (u <? 10) eqn:E.
    + apply Z.ltb_lt in E. exists (digitChar u), EmptyString. split; [reflexivity|].
      step_strings. rewrite isDigit_digitChar by lia. reflexivity.
    + destruct (IH (u / 10) (String (digitChar (u mod 10)) buf)) as (ch & ds & Heq & Hall).
      { apply Z.div_pos; lia. }
      exists ch, (ds ++ String (digitChar (u mod 10)) EmptyString)%string. split.
      * rewrite Heq. cbn [append]. now rewrite append_snoc.
      * change (allDigits ((String ch ds) ++ String (digitChar (u mod 10)) EmptyString) = true).
        apply allDigits_snoc; [exact Hall|]. apply Z.mod_pos_bound. lia.
Qed.

(** Reading back what [formatBits] wrote gives the number again. *)
Lemma parseDigits_formatBits (fuel : nat) : forall u buf,
  0 <= u < 10 ^ Z.of_nat fuel ->
  parseDigits (formatBits fuel u buf) 0 = parseDigits buf u.
Proof.
  induction fuel as [|fuel IH]; intros u buf Hu.
  - change (10 ^ Z.of_nat 0) with 1 in Hu. assert (u = 0) as -> by lia. reflexivity.
  - cbn [formatBits]. destruct (u <? 10) eqn:E.
    + apply Z.ltb_lt in E. step_strings.
      rewrite isDigit_digitChar, digitVal_digitChar by lia. reflexivity.
    + apply Z.ltb_ge in E. rewrite IH.
      * step_strings. assert (Hm : 0 <= u mod 10 < 10) by (apply Z.mod_pos_bound; lia).
        rewrite isDigit_digitChar, digitVal_digitChar by exact Hm.
        f_equal. pose proof (Z.div_mod u 10 ltac:(lia)). lia.
      * rewrite Nat2Z.inj_succ, Z.pow_succ_r in Hu by lia.
        split; [apply Z.div_pos; lia|]. apply Z.div_lt_upper_bound; lia.
Qed.

Lemma Atoi_FormatInt (i : Z) : 0 <= i <= maxInt -> Atoi (FormatInt i) = Some i.
Proof.
  intros Hi. unfold FormatInt.
  destruct (i <? 0) eqn:E; [apply Z.ltb_lt in E; lia|].
  destruct (formatBits_digits 19 i "" ltac:(lia)) as (ch & ds & Heq & Hall).
  assert (Hp : parseDigits (formatBits 20 i "") 0 = Some i).
  { rewrite parseDigits_formatBits; [reflexivity|]. unfold maxInt in Hi.
    change (10 ^ Z.of_nat 20) with 100000000000000000000. lia. }
  rewrite Heq in Hp |- *. cbn [allDigits] in Hall. apply andb_prop in Hall as [Hc _].
  unfold Atoi. cbn [append] in Hp |- *.
  rewrite (isDigit_not_dash _ Hc), (isDigit_not_plus _ Hc). cbn [orb].
  rewrite Hp.
  replace ((minInt <=? i) && (i <=? maxInt)) with true; [reflexivity|].
  symmetry. apply andb_true_intro. unfold minInt. split; apply Z.leb_le; lia.
Qed.

Lemma FormatInt_noDash (i : Z) : 0 <= i -> noDash (FormatInt i) = true.
Proof.
  intros Hi. unfold FormatInt.
  destruct (i <? 0) eqn:E; [apply Z.ltb_lt in E; lia|].
  destruct (formatBits_digits 19 i "" ltac:(lia)) as (ch & ds & Heq & Hall).
  rewrite Heq. apply allDigits_noDash.
  clear Heq. revert Hall. generalize (String ch ds). intros s.
  induction s as [|c s IHs]; cbn [append allDigits]; [reflexivity|].
  intros H. apply andb_prop in H as [Hc Hs]. rewrite Hc. cbn [andb]. auto.
Qed.

(** ** Splitting at the first dash *)

Lemma cutDash_None (s : string) : cutDash s = None <-> noDash s = true.
Proof.
  induction s as [|ch rest IH]; simpl; [tauto|].
  destruct (Ascii.eqb ch dash); simpl.
  - split; discriminate.
  - destruct (cutDash rest) as [[a b]|].
    + split; [discriminate|]. intros H. apply IH in H. discriminate.
    + split; [intros _; now apply IH|reflexivity].
Qed.

Lemma cutDash_Some (s a b : string) :
  cutDash s = Some (a, b) <-> s = (a ++ String dash b)%string /\ noDash a = true.
Proof.
  revert a. induction s as [|ch rest IH]; intros a; simpl.
  - split; [discriminate|]. intros [H _]. destruct a; discriminate.
  - destruct (Ascii.eqb_spec ch dash) as [->|Hne].
    + split.
      * intros [= <- <-]. split; reflexivity.
      * intros [H Ha]. destruct a as [|c a]; simpl in H.
        -- now inversion H.
        -- inversion H; subst c. cbn [noDash] in Ha.
           rewrite Ascii.eqb_refl in Ha. discriminate.
    + split.
      * destruct (cutDash rest) as [[a' b']|] eqn:E; [|discriminate].
        intros [= <- <-]. destruct (proj1 (IH a') eq_refl) as [-> Ha'].
        split; [reflexivity|]. simpl.
        destruct (Ascii.eqb_spec ch dash); [contradiction|]. exact Ha'.
      * intros [H Ha]. destruct a as [|c a]; simpl in H.
        -- inversion H. contradiction.
        -- inversion H; subst c rest. cbn [noDash] in Ha.
           apply andb_prop in Ha as [_ Ha].
           rewrite (proj2 (IH a) (conj eq_refl Ha)). reflexivity.
Qed.

Lemma SplitN_2 (s : string) :
  SplitN s 2 = match cutDash s with
               | None => [s]
               | Some (a, b) => [a; b]
               end.
Proof. simpl. destruct (cutDash s) as [[a b]|]; reflexivity. Qed.

Lemma SplitN_2_dash (a b : string) :
  noDash a = true -> SplitN (a ++ String dash b) 2 = [a; b].
Proof.
  intros Ha. rewrite SplitN_2.
  rewrite (proj2 (cutDash_Some _ a b) (conj eq_refl Ha)). reflexivity.
Qed.

(** ** The identity codec *)

Lemma decode_split (part0 part1 : string) :
  noDash part0 = true ->
  decode (part0 ++ String dash part1) =
  match Atoi part0, Atoi part1 with
  | Some serverID, Some networkID => Some (serverID, networkID)
  | _, _ => None
  end.
Proof.
  intros H0. unfold decode. rewrite (SplitN_2_dash _ _ H0).
  destruct part0; reflexivity.
Qed.

(** The resolver answers with the sentinel whenever the decoding steps fail. *)
Lemma lookup_decode_None {IP : Type} (client : @Client IP) (id : string) (h : Trace) :
  decode id = None ->
  err (fst (lookupServerNetworkID client id h)) = Some errInvalidServerNetworkID.
Proof.
  unfold decode, lookupServerNetworkID, bind, ret, ServerGetByID, NetworkGetByID.
  destruct (String.eqb id ""); [reflexivity|].
  destruct (SplitN id 2) as [|part0 [|part1 [|]]]; try reflexivity.
  destruct (Atoi part0) as [serverID|]; [|reflexivity].
  destruct (Server_GetByID client h serverID) as [[s|] [e|]]; try reflexivity.
  destruct (Atoi part1) as [networkID|]; [discriminate|reflexivity].
Qed.

(** The identifiers the resolver asks the cloud about are the decoded ones. *)
Lemma lookup_calls_decoded {IP : Type} (client : @Client IP) (id : string) (h : Trace)
    (serverID networkID : Z) :
  decode id = Some (serverID, networkID) ->
  snd (lookupServerNetworkID client id h) = CallServerGetByID serverID :: h \/
  snd (lookupServerNetworkID client id h) =
    CallNetworkGetByID networkID :: CallServerGetByID serverID :: h.
Proof.
  unfold decode, lookupServerNetworkID, bind, ret, ServerGetByID, NetworkGetByID.
  destruct (String.eqb id ""); [discriminate|].
  destruct (SplitN id 2) as [|part0 [|part1 [|]]]; try discriminate.
  destruct (Atoi part0) as [sid|]; [|discriminate].
  destruct (Atoi part1) as [nid|]; [|discriminate].
  intros [= -> ->].
  destruct (Server_GetByID client h serverID) as [[s|] [e|]]; try (left; reflexivity).
  destruct (Network_GetByID client _ networkID) as [[n|] e']; right; reflexivity.
Qed.

(** C5.  Decoding an encoded identifier gives the two identifiers back:
    for a server and a network whose identifiers are non-negative Go
    [int]s, the decoding steps of [lookupServerNetworkID] applied to
    [generateServerNetworkID server network], the string
    "<server id>-<network id>", yield the pair of the server's and the
    network's identifier. *)
Theorem decode_generateServerNetworkID {IP : Type} (server : @Server IP)
    (network : Network) :
  0 <= Server_ID server <= maxInt ->
  0 <= Network_ID network <= maxInt ->
  decode (generateServerNetworkID server network)
  = Some (Server_ID server, Network_ID network).
Proof.
  intros Hs Hn. unfold generateServerNetworkID.
  change (FormatInt (Server_ID server) ++ "-" ++ FormatInt (Network_ID network))%string
    with (FormatInt (Server_ID server) ++ String dash (FormatInt (Network_ID network)))%string.
  rewrite decode_split by (apply FormatInt_noDash; lia).
  rewrite !Atoi_FormatInt by assumption. reflexivity.
Qed.

Lemma decode_None_cases (id : string) :
  decode id = None <->
  id = "" \/
  noDash id = true \/
  exists part0 part1,
    id = (part0 ++ String dash part1)%string /\ noDash part0 = true /\
    (Atoi part0 = None \/ Atoi part1 = None).
Proof.
  split.
  - intros H. unfold decode in H.
    destruct (String.eqb_spec id "") as [Hid|Hid]; [now left|]. right.
    rewrite SplitN_2 in H. destruct (cutDash id) as [[a b]|] eqn:E.
    + right. apply cutDash_Some in E as [-> Ha]. exists a, b.
      split; [reflexivity|]. split; [exact Ha|].
      destruct (Atoi a); [|now left]. destruct (Atoi b); [discriminate|now right].
    + left. now apply cutDash_None.
  - intros [->|[H|(a & b & -> & Ha & Hp)]].
    + reflexivity.
    + unfold decode. destruct (String.eqb id ""); [reflexivity|].
      rewrite SplitN_2. apply cutDash_None in H. rewrite H. reflexivity.
    + rewrite decode_split by exact Ha.
      destruct Hp as [-> | ->]; [reflexivity|]. destruct (Atoi a); reflexivity.
Qed.

(** C6.  The decoding steps fail exactly when the identifier is empty,
    holds no dash at all, or, cut at its first dash, has a part that
    [strconv.Atoi] refuses; the resolver then returns the sentinel
    [errInvalidServerNetworkID].  The cut is at the first dash only:
    "12-34-56" is cut into "12" and "34-56", the second part is no
    integer, and decoding fails. *)
Theorem decode_fails_exactly :
  (forall id : string,
      decode id = None <->
      id = "" \/
      noDash id = true \/
      exists part0 part1,
        id = (part0 ++ String dash part1)%string /\ noDash part0 = true /\
        (Atoi part0 = None \/ Atoi part1 = None)) /\
  (forall (IP : Type) (client : @Client IP) (id : string) (h : Trace),
      decode id = None ->
      err (fst (lookupServerNetworkID client id h)) = Some errInvalidServerNetworkID) /\
  SplitN "12-34-56" 2 = ["12"; "34-56"] /\
  Atoi "12" = Some 12 /\
  Atoi "34-56" = None /\
  decode "12-34-56" = None.
Proof.
  split; [exact decode_None_cases|].
  split; [intros IP client id h; apply lookup_decode_None|].
  repeat split.
Qed.

(** ** The attachment resolver *)

(** Every identifier is empty, free of dashes, or cut at its first dash. *)
Lemma id_shape (id : string) :
  id = "" \/ noDash id = true \/
  exists part0 part1, id = (part0 ++ String dash part1)%string /\ noDash part0 = true.
Proof.
  destruct (cutDash id) as [[a b]|] eqn:E.
  - right. right. exists a, b. now apply cutDash_Some.
  - right. left. now apply cutDash_None.
Qed.

Lemma lookup_empty {IP : Type} (client : @Client IP) (h : Trace) :
  lookupServerNetworkID client "" h = (invalidID None, h).
Proof. reflexivity. Qed.

Lemma lookup_noDash {IP : Type} (client : @Client IP) (id : string) (h : Trace) :
  noDash id = true ->
  lookupServerNetworkID client id h = (invalidID None, h).
Proof.
  intros H. unfold lookupServerNetworkID.
  destruct (String.eqb id ""); [reflexivity|].
  rewrite SplitN_2. apply cutDash_None in H. rewrite H. reflexivity.
Qed.

(** The resolver on an identifier with a dash, path by path. *)
Lemma lookup_split {IP : Type} (client : @Client IP) (part0 part1 : string) (h : Trace) :
  noDash part0 = true ->
  lookupServerNetworkID client (part0 ++ String dash part1) h =
  match Atoi part0 with
  | None => (invalidID None, h)
  | Some serverID =>
      let h1 := CallServerGetByID serverID :: h in
      match Server_GetByID client h serverID with
      | (srv, Some _) => (invalidID srv, h1)
      | (None, None) => (invalidID None, h1)
      | (Some s, None) =>
          match Atoi part1 with
          | None => (invalidID (Some s), h1)
          | Some networkID =>
              let h2 := CallNetworkGetByID networkID :: h1 in
              match Network_GetByID client h1 networkID with
              | (None, _) => (invalidID (Some s), h2)
              | (Some n, e) =>
                  ({| server := Some s; network := Some n;
                      serverPrivateNet := findPrivateNet (Server_PrivateNet s) n;
                      err := e |}, h2)
              end
          end
      end
  end.
Proof.
  intros H0. unfold lookupServerNetworkID.
  rewrite (SplitN_2_dash _ _ H0).
  replace (String.eqb (part0 ++ String dash part1) "") with false
    by (destruct part0; reflexivity).
  destruct (Atoi part0) as [serverID|]; [|reflexivity].
  unfold bind, ServerGetByID, NetworkGetByID, ret.
  destruct (Server_GetByID client h serverID) as [[s|] [e|]]; try reflexivity.
  destruct (Atoi part1) as [networkID|]; [|reflexivity].
  destruct (Network_GetByID client _ networkID) as [[n|] e']; reflexivity.
Qed.

Lemma findPrivateNet_None {IP : Type} (pns : list (@ServerPrivateNet IP)) (nw : Network) :
  findPrivateNet pns nw = None <->
  forall pn, In pn pns -> Network_ID (PrivateNet_Network pn) <> Network_ID nw.
Proof.
  induction pns as [|pn rest IH]; cbn [findPrivateNet In].
  - split; [intros _ pn []|reflexivity].
  - destruct (Z.eqb_spec (Network_ID (PrivateNet_Network pn)) (Network_ID nw)) as [E|E].
    + split; [discriminate|]. intros H. exfalso. exact (H pn (or_introl eq_refl) E).
    + rewrite IH. split.
      * intros H pn' [<-|Hin]; [exact E|exact (H pn' Hin)].
      * intros H pn' Hin. apply H. now right.
Qed.

Lemma findPrivateNet_Some {IP : Type} (pns : list (@ServerPrivateNet IP)) (nw : Network)
    (pn : ServerPrivateNet) :
  findPrivateNet pns nw = Some pn ->
  In pn pns /\ Network_ID (PrivateNet_Network pn) = Network_ID nw.
Proof.
  induction pns as [|p rest IH]; cbn [findPrivateNet In]; [discriminate|].
  destruct (Z.eqb_spec (Network_ID (PrivateNet_Network p)) (Network_ID nw)) as [E|E].
  - intros [= <-]. split; [now left|exact E].
  - intros H. destruct (IH H) as [Hin Hid]. split; [now right|exact Hid].
Qed.

(** X3.  A server and a network that are both found without an error are
    returned with the first private-net entry of that network. *)
Lemma lookup_found {IP : Type} (client : @Client IP) (id : string) (h : Trace)
    (serverID networkID : Z) (s : Server) (n : Network) :
  decode id = Some (serverID, networkID) ->
  Server_GetByID client h serverID = (Some s, None) ->
  Network_GetByID client (CallServerGetByID serverID :: h) networkID = (Some n, None) ->
  lookupServerNetworkID client id h
  = ({| server := Some s; network := Some n;
        serverPrivateNet := findPrivateNet (Server_PrivateNet s) n; err := None |},
     CallNetworkGetByID networkID :: CallServerGetByID serverID :: h).
Proof.
  intros Hd Hs Hn.
  destruct (id_shape id) as [->|[H|(p0 & p1 & -> & H0)]].
  - discriminate Hd.
  - rewrite (proj2 (decode_None_cases id) (or_intror (or_introl H))) in Hd.
    discriminate Hd.
  - rewrite decode_split in Hd by exact H0. rewrite lookup_split by exact H0.
    destruct (Atoi p0) as [sid|]; [|discriminate Hd].
    destruct (Atoi p1) as [nid|]; [|discriminate Hd].
    injection Hd as -> ->. cbv zeta. rewrite Hs, Hn. reflexivity.
Qed.

(** A nil server or a nil network always comes with the sentinel. *)
Lemma lookup_nil_invalid {IP : Type} (client : @Client IP) (id : string) (h : Trace) :
  server (fst (lookupServerNetworkID client id h)) = None \/
  network (fst (lookupServerNetworkID client id h)) = None ->
  err (fst (lookupServerNetworkID client id h)) = Some errInvalidServerNetworkID.
Proof.
  destruct (id_shape id) as [->|[H|(p0 & p1 & -> & H0)]].
  - reflexivity.
  - rewrite lookup_noDash by exact H. reflexivity.
  - rewrite lookup_split by exact H0.
    destruct (Atoi p0) as [sid|]; [|reflexivity]. cbv zeta.
    destruct (Server_GetByID client h sid) as [[s|] [e|]]; try reflexivity.
    destruct (Atoi p1) as [nid|]; [|reflexivity].
    destruct (Network_GetByID client _ nid) as [[n|] e']; [|reflexivity].
    cbn. intros [H|H]; discriminate H.
Qed.

(** The resolver writes no log line: it only adds its calls to the trace. *)
Lemma lookup_trace {IP : Type} (client : @Client IP) (id : string) (h : Trace) :
  snd (lookupServerNetworkID client id h) = h \/
  (exists sid, snd (lookupServerNetworkID client id h) = CallServerGetByID sid :: h) \/
  (exists sid nid,
      snd (lookupServerNetworkID client id h)
      = CallNetworkGetByID nid :: CallServerGetByID sid :: h).
Proof.
  destruct (id_shape id) as [->|[H|(p0 & p1 & -> & H0)]].
  - now left.
  - rewrite lookup_noDash by exact H. now left.
  - rewrite lookup_split by exact H0.
    destruct (Atoi p0) as [sid|]; [|now left]. cbv zeta.
    destruct (Server_GetByID client h sid) as [[s|] [e|]];
      try (right; left; exists sid; reflexivity).
    destruct (Atoi p1) as [nid|]; [|right; left; exists sid; reflexivity].
    destruct (Network_GetByID client _ nid) as [[n|] e'];
      right; right; exists sid, nid; reflexivity.
Qed.

Lemma lookup_gone_lines {IP : Type} (client : @Client IP) (id : string) (h : Trace) :
  filter isGoneLine (snd (lookupServerNetworkID client id h)) = filter isGoneLine h.
Proof.
  destruct (lookup_trace client id h) as [->|[[sid ->]|(sid & nid & ->)]]; reflexivity.
Qed.

Lemma split_not_empty (part0 part1 : string) :
  (part0 ++ String dash part1)%string <> "".
Proof. destruct part0; discriminate. Qed.

Lemma split_has_dash (part0 part1 : string) :
  noDash (part0 ++ String dash part1) = true -> False.
Proof.
  induction part0 as [|c p IH]; cbn [append noDash].
  - rewrite Ascii.eqb_refl. discriminate.
  - intros H. apply andb_prop in H as [_ H]. exact (IH H).
Qed.

Lemma cut_unique (a b a' b' : string) :
  (a ++ String dash b = a' ++ String dash b')%string ->
  noDash a = true -> noDash a' = true -> a = a' /\ b = b'.
Proof.
  intros E Ha Ha'.
  pose proof (proj2 (cutDash_Some _ a b) (conj eq_refl Ha)) as C1.
  pose proof (proj2 (cutDash_Some _ a' b') (conj E Ha')) as C2.
  rewrite C1 in C2. now inversion C2.
Qed.

(** C3 (as the code has it).  When the decoding steps fail, the resolver
    returns the sentinel and never fetches a network.  It does so
    without any call to the cloud when the identifier is empty, has no
    dash, or has a server part that is no integer; when only the network
    part is no integer, the server has been fetched once by then, since
    the second [strconv.Atoi] comes after [Server.GetByID]. *)
Theorem lookup_decode_failure {IP : Type} (client : @Client IP) (id : string)
    (h : Trace) :
  decode id = None ->
  err (fst (lookupServerNetworkID client id h)) = Some errInvalidServerNetworkID /\
  network (fst (lookupServerNetworkID client id h)) = None /\
  (forall nid, ~ In (CallNetworkGetByID nid) h ->
               ~ In (CallNetworkGetByID nid) (snd (lookupServerNetworkID client id h))) /\
  (id = "" \/ noDash id = true \/
   (exists part0 part1,
       id = (part0 ++ String dash part1)%string /\ noDash part0 = true /\
       Atoi part0 = None) ->
   snd (lookupServerNetworkID client id h) = h) /\
  (forall part0 part1 serverID,
      id = (part0 ++ String dash part1)%string -> noDash part0 = true ->
      Atoi part0 = Some serverID ->
      Atoi part1 = None /\
      snd (lookupServerNetworkID client id h) = CallServerGetByID serverID :: h).
Proof.
  intros Hd.
  destruct (id_shape id) as [->|[H|(p0 & p1 & -> & H0)]].
  - split; [reflexivity|]. split; [reflexivity|].
    split; [intros nid Hn; exact Hn|]. split; [reflexivity|].
    intros a b x E. symmetry in E. destruct (split_not_empty _ _ E).
  - rewrite lookup_noDash by exact H.
    split; [reflexivity|]. split; [reflexivity|].
    split; [intros nid Hn; exact Hn|]. split; [reflexivity|].
    intros a b x E. subst id. destruct (split_has_dash _ _ H).
  - rewrite decode_split in Hd by exact H0.
    rewrite lookup_split by exact H0.
    destruct (Atoi p0) as [sid|] eqn:E0.
    + destruct (Atoi p1) as [nid|] eqn:E1; [discriminate Hd|]. cbv zeta.
      assert (Hout : forall srv : option (@Server IP),
        err (fst (invalidID srv, CallServerGetByID sid :: h))
          = Some errInvalidServerNetworkID /\
        network (fst (invalidID srv, CallServerGetByID sid :: h)) = None /\
        (forall x, ~ In (CallNetworkGetByID x) h ->
                   ~ In (CallNetworkGetByID x)
                        (snd (invalidID srv, CallServerGetByID sid :: h))) /\
        (p0 ++ String dash p1 = "" \/ noDash (p0 ++ String dash p1) = true \/
         (exists part0 part1,
             p0 ++ String dash p1 = part0 ++ String dash part1 /\
             noDash part0 = true /\ Atoi part0 = None) ->
         snd (invalidID srv, CallServerGetByID sid :: h) = h)%string /\
        (forall part0 part1 serverID,
            (p0 ++ String dash p1 = part0 ++ String dash part1)%string ->
            noDash part0 = true -> Atoi part0 = Some serverID ->
            Atoi part1 = None /\
            snd (invalidID srv, CallServerGetByID sid :: h)
            = CallServerGetByID serverID :: h)).
      { intros srv. split; [reflexivity|]. split; [reflexivity|]. split; [|split].
        - intros x Hx [Hin|Hin]; [discriminate Hin|exact (Hx Hin)].
        - intros [E|[E|(a & b & E & Ha & Ea)]].
          + destruct (split_not_empty _ _ E).
          + destruct (split_has_dash _ _ E).
          + destruct (cut_unique _ _ _ _ E H0 Ha) as [-> _]. congruence.
        - intros a b x E Ha Ex.
          destruct (cut_unique _ _ _ _ E H0 Ha) as [-> ->].
          split; [exact E1|]. cbn [snd]. congruence. }
      destruct (Server_GetByID client h sid) as [[s|] [e|]]; apply Hout.
    + split; [reflexivity|]. split; [reflexivity|].
      split; [intros x Hx; exact Hx|]. split; [reflexivity|].
      intros a b x E Ha Ex.
      destruct (cut_unique _ _ _ _ E H0 Ha) as [-> ->]. congruence.
Qed.

(** C3, the identifier "12-34-56" against a cloud that has server 12:
    decoding fails on the network part, and by then the resolver has
    fetched server 12, so the trace is not empty. *)
Lemma lookup_12_34_56_fetches_server :
  decode "12-34-56" = None /\
  lookupServerNetworkID (scriptedClient calm) "12-34-56" []
  = (invalidID (Some server12), [CallServerGetByID 12]) /\
  snd (lookupServerNetworkID (scriptedClient calm) "12-34-56" []) <> [].
Proof.
  split; [reflexivity|]. split; [reflexivity|]. discriminate.
Qed.

(** C4.  For an identifier that decodes to [(serverID, networkID)]:
    - a server fetch that fails, or that finds nothing, yields the
      sentinel;
    - a server that is found and a network that is not yields the
      sentinel;
    - a server and a network that are both found, where no entry of the
      server's private networks has the network's identifier, yields
      the server, the network, a nil membership and a nil error. *)
Theorem lookup_absence_cases {IP : Type} (client : @Client IP) (id : string)
    (h : Trace) (serverID networkID : Z) :
  decode id = Some (serverID, networkID) ->
  let h1 := CallServerGetByID serverID :: h in
  let h2 := CallNetworkGetByID networkID :: h1 in
  (forall srv e,
      Server_GetByID client h serverID = (srv, Some e) ->
      lookupServerNetworkID client id h = (invalidID srv, h1)) /\
  (Server_GetByID client h serverID = (None, None) ->
   lookupServerNetworkID client id h = (invalidID None, h1)) /\
  (forall s e,
      Server_GetByID client h serverID = (Some s, None) ->
      Network_GetByID client h1 networkID = (None, e) ->
      lookupServerNetworkID client id h = (invalidID (Some s), h2)) /\
  (forall s n,
      Server_GetByID client h serverID = (Some s, None) ->
      Network_GetByID client h1 networkID = (Some n, None) ->
      (forall pn, In pn (Server_PrivateNet s) ->
                  Network_ID (PrivateNet_Network pn) <> Network_ID n) ->
      lookupServerNetworkID client id h
      = ({| server := Some s; network := Some n;
            serverPrivateNet := None; err := None |}, h2)).
Proof.
  intros Hd.
  destruct (id_shape id) as [->|[H|(p0 & p1 & -> & H0)]].
  - discriminate Hd.
  - rewrite (proj2 (decode_None_cases id) (or_intror (or_introl H))) in Hd.
    discriminate Hd.
  - rewrite decode_split in Hd by exact H0.
    rewrite lookup_split by exact H0.
    destruct (Atoi p0) as [sid|]; [|discriminate Hd].
    destruct (Atoi p1) as [nid|]; [|discriminate Hd].
    injection Hd as -> ->. cbv zeta.
    split; [|split; [|split]].
    + intros srv e ->. destruct srv; reflexivity.
    + intros ->. reflexivity.
    + intros s e -> ->. reflexivity.
    + intros s n -> -> Hpn.
      rewrite (proj2 (findPrivateNet_None _ _) Hpn). reflexivity.
Qed.

(** ** Read and update never meet a nil server or network *)

Lemma Read_gone_lines {IP : Type} (IPString : IP -> string)
    (mergeStringSlice : list string -> list string -> list string)
    (setList : list string -> list string)
    (client : @Client IP) (d : ResourceData) (h : Trace) :
  filter isGoneLine
    (snd (resourceServerNetworkRead IPString mergeStringSlice setList client d h))
  = filter isGoneLine h.
Proof.
  unfold resourceServerNetworkRead, bind.
  pose proof (lookup_nil_invalid client (Id d) h) as Hnil.
  pose proof (lookup_gone_lines client (Id d) h) as Hlog.
  destruct (lookupServerNetworkID client (Id d) h) as [r h'].
  cbn [fst snd] in Hnil, Hlog.
  destruct (isInvalidServerNetworkID (err r)); [exact Hlog|].
  destruct (err r) as [e|] eqn:Ee; [exact Hlog|].
  destruct (server r) as [srv|]; [|discriminate Hnil; now left].
  destruct (network r) as [nw|]; [|discriminate Hnil; now right].
  destruct (serverPrivateNet r); exact Hlog.
Qed.

Lemma Update_gone_lines {IP : Type} (ParseIP : string -> IP) (IPString : IP -> string)
    (mergeStringSlice : list string -> list string -> list string)
    (setList : list string -> list string)
    (client : @Client IP) (d : ResourceData) (h : Trace) :
  filter isGoneLine
    (snd (resourceServerNetworkUpdate ParseIP IPString mergeStringSlice setList client d h))
  = filter isGoneLine h.
Proof.
  unfold resourceServerNetworkUpdate, bind.
  pose proof (lookup_nil_invalid client (Id d) h) as Hnil.
  pose proof (lookup_gone_lines client (Id d) h) as Hlog.
  destruct (lookupServerNetworkID client (Id d) h) as [r h'].
  cbn [fst snd] in Hnil, Hlog.
  destruct (isInvalidServerNetworkID (err r)); [exact Hlog|].
  destruct (err r) as [e|] eqn:Ee; [exact Hlog|].
  destruct (server r) as [srv|]; [|discriminate Hnil; now left].
  destruct (network r) as [nw|]; [|discriminate Hnil; now right].
  destruct (alias_ips_changed d).
  - unfold ChangeAliasIPs, waitForNetworkAction.
    destruct (Server_ChangeAliasIPs client h' _ _) as [action [e|]]; [exact Hlog|].
    destruct (Action_Wait client _ action _) as [e|]; [exact Hlog|].
    rewrite Read_gone_lines. exact Hlog.
  - rewrite Read_gone_lines. exact Hlog.
Qed.

(** C10.  The resolver never returns a nil server or a nil network with
    a nil error: a nil server or network comes with the sentinel, which
    is what a failed or empty server fetch and an empty network fetch
    produce.  So the branches of read and update for a nil server or a
    nil network are never taken: neither of them ever writes the
    "Server not found" or the "Network not found" line. *)
Theorem lookup_never_nil_without_error :
  (forall (IP : Type) (client : @Client IP) (id : string) (h : Trace),
      let r := fst (lookupServerNetworkID client id h) in
      (server r = None \/ network r = None ->
       err r = Some errInvalidServerNetworkID) /\
      (err r = None -> server r <> None /\ network r <> None)) /\
  (forall (IP : Type) (client : @Client IP) (id : string) (h : Trace)
          (serverID networkID : Z),
      decode id = Some (serverID, networkID) ->
      snd (Server_GetByID client h serverID) <> None \/
      fst (Server_GetByID client h serverID) = None \/
      fst (Network_GetByID client (CallServerGetByID serverID :: h) networkID) = None ->
      err (fst (lookupServerNetworkID client id h)) = Some errInvalidServerNetworkID) /\
  (forall (IP : Type) (IPString : IP -> string)
          (mergeStringSlice : list string -> list string -> list string)
    (setList : list string -> list string)
          (client : @Client IP) (d : ResourceData) (h : Trace),
      filter isGoneLine
        (snd (resourceServerNetworkRead IPString mergeStringSlice setList client d h))
      = filter isGoneLine h) /\
  (forall (IP : Type) (ParseIP : string -> IP) (IPString : IP -> string)
          (mergeStringSlice : list string -> list string -> list string)
    (setList : list string -> list string)
          (client : @Client IP) (d : ResourceData) (h : Trace),
      filter isGoneLine
        (snd (resourceServerNetworkUpdate ParseIP IPString mergeStringSlice setList client d h))
      = filter isGoneLine h).
Proof.
  split; [|split; [|split]].
  - intros IP client id h r. subst r. split.
    + apply lookup_nil_invalid.
    + intros He. split; intros Hn.
      * rewrite (lookup_nil_invalid client id h (or_introl Hn)) in He. discriminate He.
      * rewrite (lookup_nil_invalid client id h (or_intror Hn)) in He. discriminate He.
  - intros IP client id h sid nid Hd Habs.
    destruct (id_shape id) as [->|[H|(p0 & p1 & -> & H0)]].
    + reflexivity.
    + rewrite lookup_noDash by exact H. reflexivity.
    + rewrite decode_split in Hd by exact H0. rewrite lookup_split by exact H0.
      destruct (Atoi p0) as [x|]; [|discriminate Hd].
      destruct (Atoi p1) as [y|]; [|discriminate Hd].
      injection Hd as -> ->. cbv zeta.
      destruct (Server_GetByID client h sid) as [[s|] [e|]]; try reflexivity.
      destruct (Network_GetByID client _ nid) as [[n|] e']; [|reflexivity].
      cbn [fst snd] in Habs. destruct Habs as [Ha|[Ha|Ha]];
        [contradiction|discriminate Ha|discriminate Ha].
  - intros. apply Read_gone_lines.
  - intros. apply Update_gone_lines.
Qed.

(** ** The retry loop around one call *)

Lemma retryable_HcloudError (e : error) :
  retryable (Some e) = true -> exists code message, e = HcloudError code message.
Proof.
  destruct e as [|code message| | |]; try discriminate. intros _. now exists code, message.
Qed.

Lemma retryLoop_ext {S : Type} (f g : M S (option error)) :
  (forall s, f s = g s) ->
  forall tries last s, retryLoop tries f last s = retryLoop tries g last s.
Proof.
  intros Hfg tries. induction tries as [|tries IH]; intros last s; cbn [retryLoop].
  - reflexivity.
  - rewrite Hfg. destruct (g s) as [[[| | | |]|] s']; try reflexivity; apply IH.
Qed.

Lemma after_S {IP : Type} (j : nat) (ev : @Event IP) (h : Trace) :
  after (S j) ev h = after j ev (ev :: h).
Proof.
  unfold after. induction j as [|j IH]; [reflexivity|].
  cbn [repeat app] in IH |- *. now rewrite IH.
Qed.

Section RetryLoop.

Context {IP : Type}.
Variable ask : @Trace IP -> option Action * option error.
Variable ev : @Event IP.

(** A conflict or a lock: the loop goes round again. *)
Lemma retryLoop_again (tries : nat) (last : option error) (a0 : option Action)
    (h : Trace) :
  retryable (snd (ask h)) = true ->
  retryLoop (S tries) (attemptOf ask ev) last (a0, h)
  = retryLoop tries (attemptOf ask ev) (snd (ask h)) (fst (ask h), ev :: h).
Proof.
  intros Hr. cbn [retryLoop attemptOf].
  destruct (ask h) as [a e]. cbn [fst snd] in Hr |- *. rewrite Hr.
  destruct e as [e|]; [|discriminate Hr].
  destruct (retryable_HcloudError e Hr) as (code & message & ->). reflexivity.
Qed.

(** A success or any other error: the loop ends at once with it. *)
Lemma retryLoop_done (tries : nat) (last : option error) (a0 : option Action)
    (h : Trace) :
  retryable (snd (ask h)) = false ->
  retryLoop (S tries) (attemptOf ask ev) last (a0, h)
  = (snd (ask h), (fst (ask h), ev :: h)).
Proof.
  intros Hr. cbn [retryLoop attemptOf].
  destruct (ask h) as [a e]. cbn [fst snd] in Hr |- *. rewrite Hr.
  destruct e as [e|]; reflexivity.
Qed.

(** After [k] conflicts in a row the loop stands at its [k]-th round,
    holding the last answer. *)
Lemma retryLoop_prefix (k : nat) : forall (tries : nat) (last : option error)
    (a0 : option Action) (h : Trace),
  (forall j, (j < k)%nat -> retryable (snd (ask (after j ev h))) = true) ->
  retryLoop (k + tries) (attemptOf ask ev) last (a0, h)
  = retryLoop tries (attemptOf ask ev)
      (match k with O => last | S k' => snd (ask (after k' ev h)) end)
      (match k with O => a0 | S k' => fst (ask (after k' ev h)) end, after k ev h).
Proof.
  induction k as [|k IH]; intros tries last a0 h Hk.
  - reflexivity.
  - cbn [Nat.add]. rewrite retryLoop_again by (apply (Hk O); lia).
    rewrite IH.
    + rewrite <- after_S. destruct k as [|k']; [reflexivity|].
      rewrite <- after_S. reflexivity.
    + intros j Hj. rewrite <- after_S. apply Hk. lia.
Qed.

(** [k] conflicts, then an answer that is none, with tries to spare. *)
Lemma retry_ends (maxTries k : nat) (a0 : option Action) (h : Trace) :
  (forall j, (j < k)%nat -> retryable (snd (ask (after j ev h))) = true) ->
  (k < maxTries)%nat ->
  retryable (snd (ask (after k ev h))) = false ->
  retry maxTries (attemptOf ask ev) (a0, h)
  = (snd (ask (after k ev h)), (fst (ask (after k ev h)), after (S k) ev h)).
Proof.
  intros Hk Hlt Hr. unfold retry.
  replace maxTries with (k + S (maxTries - S k))%nat by lia.
  rewrite retryLoop_prefix by exact Hk.
  rewrite retryLoop_done by exact Hr. reflexivity.
Qed.

(** Nothing but conflicts: the tries run out and the last one is returned. *)
Lemma retry_exhausted (maxTries : nat) (a0 : option Action) (h : Trace) :
  (forall j, (j < S maxTries)%nat -> retryable (snd (ask (after j ev h))) = true) ->
  retry (S maxTries) (attemptOf ask ev) (a0, h)
  = (snd (ask (after maxTries ev h)),
     (fst (ask (after maxTries ev h)), after (S maxTries) ev h)).
Proof.
  intros Hk. unfold retry.
  replace (S maxTries) with (S maxTries + 0)%nat at 1 by lia.
  rewrite retryLoop_prefix by exact Hk. reflexivity.
Qed.

(** Whatever error the loop returns was the answer to one of its calls. *)
Lemma retryLoop_error_origin (tries : nat) : forall (last : option error)
    (a0 : option Action) (h : Trace) (e : error),
  fst (retryLoop tries (attemptOf ask ev) last (a0, h)) = Some e ->
  last = Some e \/ exists h', snd (ask h') = Some e.
Proof.
  induction tries as [|tries IH]; intros last a0 h e.
  - cbn. intros ->. now left.
  - destruct (retryable (snd (ask h))) eqn:Hr.
    + rewrite retryLoop_again by exact Hr. intros H.
      destruct (IH _ _ _ _ H) as [Hl|Hex]; [|now right].
      right. now exists h.
    + rewrite retryLoop_done by exact Hr. cbn [fst]. intros H. right. now exists h.
Qed.

End RetryLoop.

Lemma attachAttempt_shape {IP : Type} (client : @Client IP) (srv : option Server)
    (opts : ServerAttachToNetworkOpts) (s : option Action * Trace) :
  attachAttempt client srv opts s
  = attemptOf (fun h => Server_AttachToNetwork client h srv opts)
              (CallAttachToNetwork srv opts) s.
Proof.
  destruct s as [a0 h]. unfold attachAttempt, attemptOf, AttachToNetwork.
  destruct (Server_AttachToNetwork client h srv opts) as [a [e|]]; [|reflexivity].
  destruct (retryable (Some e)); reflexivity.
Qed.

Lemma detachAttempt_shape {IP : Type} (client : @Client IP) (srv : option Server)
    (nw : option Network) (s : option Action * Trace) :
  detachAttempt client srv nw s
  = attemptOf (fun h => Server_DetachFromNetwork client h srv {| Detach_Network := nw |})
              (CallDetachFromNetwork srv {| Detach_Network := nw |}) s.
Proof.
  destruct s as [a0 h]. unfold detachAttempt, attemptOf, DetachFromNetwork.
  destruct (Server_DetachFromNetwork client h srv _) as [a e]. reflexivity.
Qed.

Lemma retry_ext {S : Type} (f g : M S (option error)) (maxTries : nat) (s : S) :
  (forall s, f s = g s) -> retry maxTries f s = retry maxTries g s.
Proof. intros H. unfold retry. now apply retryLoop_ext. Qed.

Lemma alreadyAttached_not_retryable (e : option error) :
  IsError e ErrorCodeServerAlreadyAttached = true -> retryable e = false.
Proof.
  destruct e as [[|[] message| | |]|]; try discriminate; reflexivity.
Qed.

Lemma notFound_not_retryable (e : option error) :
  IsError e ErrorCodeNotFound = true -> retryable e = false.
Proof.
  destruct e as [[|[] message| | |]|]; try discriminate; reflexivity.
Qed.

Lemma retryable_not_alreadyAttached (e : option error) :
  retryable e = true -> IsError e ErrorCodeServerAlreadyAttached = false.
Proof.
  destruct e as [[|[] message| | |]|]; try discriminate; reflexivity.
Qed.

Lemma retryable_not_notFound (e : option error) :
  retryable e = true -> IsError e ErrorCodeNotFound = false.
Proof.
  destruct e as [[|[] message| | |]|]; try discriminate; reflexivity.
Qed.

Lemma filter_after {IP : Type} (p : @Event IP -> bool) (j : nat) (ev : Event)
    (h : Trace) :
  p ev = false -> filter p (after j ev h) = filter p h.
Proof.
  intros Hp. unfold after. induction j as [|j IH]; [reflexivity|].
  cbn [repeat app filter]. now rewrite Hp.
Qed.

(** C9.  The retry loop around the attach call and around the detach
    call.  Suppose the first [k] answers of the cloud are conflicts or
    locks.  Each of them is handed back to the loop and the call is
    made again while tries remain:
    - when the next answer is anything else and a try is left for it,
      the loop makes exactly that one further call and ends with that
      answer, whatever number of tries remains;
    - when [k] is the number of tries, the loop ends after exactly [k]
      calls and returns the error of the last one. *)
Theorem retry_policy {IP : Type} (client : @Client IP) (defaultMaxRetries k : nat)
    (a0 : option Action) (h : Trace) :
  (forall (srv : option Server) (opts : ServerAttachToNetworkOpts),
      let ev := CallAttachToNetwork srv opts in
      let answer j := Server_AttachToNetwork client (after j ev h) srv opts in
      (forall j, (j < k)%nat -> retryable (snd (answer j)) = true) ->
      ((k < defaultMaxRetries)%nat ->
       retryable (snd (answer k)) = false ->
       retry defaultMaxRetries (attachAttempt client srv opts) (a0, h)
       = (snd (answer k), (fst (answer k), after (S k) ev h))) /\
      (k = defaultMaxRetries -> (0 < k)%nat ->
       retry defaultMaxRetries (attachAttempt client srv opts) (a0, h)
       = (snd (answer (k - 1)%nat), (fst (answer (k - 1)%nat), after k ev h)))) /\
  (forall (srv : option Server) (nw : option Network),
      let opts := {| Detach_Network := nw |} in
      let ev := CallDetachFromNetwork srv opts in
      let answer j := Server_DetachFromNetwork client (after j ev h) srv opts in
      (forall j, (j < k)%nat -> retryable (snd (answer j)) = true) ->
      ((k < defaultMaxRetries)%nat ->
       retryable (snd (answer k)) = false ->
       retry defaultMaxRetries (detachAttempt client srv nw) (a0, h)
       = (snd (answer k), (fst (answer k), after (S k) ev h))) /\
      (k = defaultMaxRetries -> (0 < k)%nat ->
       retry defaultMaxRetries (detachAttempt client srv nw) (a0, h)
       = (snd (answer (k - 1)%nat), (fst (answer (k - 1)%nat), after k ev h)))).
Proof.
  split.
  - intros srv opts ev answer Hk. split.
    + intros Hlt Hr.
      rewrite (retry_ext _ _ _ _ (attachAttempt_shape client srv opts)).
      exact (retry_ends (fun h => Server_AttachToNetwork client h srv opts) ev
                        defaultMaxRetries k a0 h Hk Hlt Hr).
    + intros <- Hpos. destruct k as [|k']; [lia|].
      rewrite (retry_ext _ _ _ _ (attachAttempt_shape client srv opts)).
      replace (S k' - 1)%nat with k' by lia.
      exact (retry_exhausted (fun h => Server_AttachToNetwork client h srv opts) ev
                             k' a0 h Hk).
  - intros srv nw opts ev answer Hk. split.
    + intros Hlt Hr.
      rewrite (retry_ext _ _ _ _ (detachAttempt_shape client srv nw)).
      exact (retry_ends (fun h => Server_DetachFromNetwork client h srv opts) ev
                        defaultMaxRetries k a0 h Hk Hlt Hr).
    + intros <- Hpos. destruct k as [|k']; [lia|].
      rewrite (retry_ext _ _ _ _ (detachAttempt_shape client srv nw)).
      replace (S k' - 1)%nat with k' by lia.
      exact (retry_exhausted (fun h => Server_DetachFromNetwork client h srv opts) ev
                             k' a0 h Hk).
Qed.

(** ** Attach *)

(** C7.  Suppose the cloud answers the attach call, possibly after some
    conflicts or locks and with a try left, with an error that is
    neither.  When that error is "server already attached", attach
    returns no error, writes its info line and never waits for an
    action.  Any other such error is returned inside
    "attach server to network: ...". *)
Theorem attach_already_attached {IP : Type} (defaultMaxRetries : nat)
    (client : @Client IP) (srv : Server) (nw : Network) (ip : IP)
    (aliasIPs : list IP) (h : Trace) (k : nat) :
  let opts := {| Attach_Network := Some nw; Attach_IP := ip;
                 Attach_AliasIPs := aliasIPs |} in
  let ev := CallAttachToNetwork (Some srv) opts in
  let answer j := Server_AttachToNetwork client (after j ev h) (Some srv) opts in
  (forall j, (j < k)%nat -> retryable (snd (answer j)) = true) ->
  (k < defaultMaxRetries)%nat ->
  (IsError (snd (answer k)) ErrorCodeServerAlreadyAttached = true ->
   attachServerToNetwork defaultMaxRetries client srv nw ip aliasIPs h
   = (None, Log (InfoAlreadyAttached (Server_ID srv) (Network_ID nw))
              :: after (S k) ev h) /\
   filter isWait
     (snd (attachServerToNetwork defaultMaxRetries client srv nw ip aliasIPs h))
   = filter isWait h) /\
  (forall e,
      snd (answer k) = Some e ->
      retryable (Some e) = false ->
      IsError (Some e) ErrorCodeServerAlreadyAttached = false ->
      attachServerToNetwork defaultMaxRetries client srv nw ip aliasIPs h
      = (Some (Errorf "attach server to network" e), after (S k) ev h)).
Proof.
  intros opts ev answer Hk Hlt.
  assert (Hrun : retryable (snd (answer k)) = false ->
                 retry defaultMaxRetries (attachAttempt client (Some srv) opts) (None, h)
                 = (snd (answer k), (fst (answer k), after (S k) ev h))).
  { intros Hr. rewrite (retry_ext _ _ _ _ (attachAttempt_shape client (Some srv) opts)).
    exact (retry_ends (fun h => Server_AttachToNetwork client h (Some srv) opts) ev
                      defaultMaxRetries k None h Hk Hlt Hr). }
  split.
  - intros Hal. unfold attachServerToNetwork. fold opts.
    rewrite (Hrun (alreadyAttached_not_retryable _ Hal)). rewrite Hal.
    split; [reflexivity|]. cbn [bind logPrintf ret snd filter isGoneLine isWait].
    apply filter_after. reflexivity.
  - intros e He Hr Hal. unfold attachServerToNetwork. fold opts.
    rewrite Hrun by (rewrite He; exact Hr). rewrite He, Hal. reflexivity.
Qed.

(** X13.  When every try meets a conflict or a lock, attach returns the last
    of these errors inside "attach server to network: ...". *)
Lemma attach_exhausted {IP : Type} (maxTries : nat) (client : @Client IP)
    (srv : Server) (nw : Network) (ip : IP) (aliasIPs : list IP) (h : Trace) (e : error) :
  let opts := {| Attach_Network := Some nw; Attach_IP := ip;
                 Attach_AliasIPs := aliasIPs |} in
  let ev := CallAttachToNetwork (Some srv) opts in
  let answer j := Server_AttachToNetwork client (after j ev h) (Some srv) opts in
  (forall j, (j < S maxTries)%nat -> retryable (snd (answer j)) = true) ->
  snd (answer maxTries) = Some e ->
  attachServerToNetwork (S maxTries) client srv nw ip aliasIPs h
  = (Some (Errorf "attach server to network" e), after (S maxTries) ev h).
Proof.
  intros opts ev answer Hk He.
  assert (Hrun : retry (S maxTries) (attachAttempt client (Some srv) opts) (None, h)
                 = (snd (answer maxTries),
                    (fst (answer maxTries), after (S maxTries) ev h))).
  { rewrite (retry_ext _ _ _ _ (attachAttempt_shape client (Some srv) opts)).
    exact (retry_exhausted (fun h => Server_AttachToNetwork client h (Some srv) opts) ev
                           maxTries None h Hk). }
  unfold attachServerToNetwork. fold opts. rewrite Hrun.
  rewrite (retryable_not_alreadyAttached _ (Hk maxTries (Nat.lt_succ_diag_r _))).
  rewrite He. reflexivity.
Qed.

(** ** Delete *)

Lemma Delete_unfold {IP : Type} (defaultMaxRetries : nat) (client : @Client IP)
    (d : ResourceData) (h : Trace) :
  resourceServerNetworkDelete defaultMaxRetries client d h =
  let (r, h1) := lookupServerNetworkID client (Id d) h in
  match err r with
  | Some _ => (([], SetId d ""), Log (WarnInvalidID (Id d) (err r)) :: h1)
  | None =>
      let opts := {| Detach_Network := network r |} in
      let '(e, (action, h2)) :=
        retry defaultMaxRetries
          (attemptOf (fun h => Server_DetachFromNetwork client h (server r) opts)
                     (CallDetachFromNetwork (server r) opts)) (None, h1) in
      if IsError e ErrorCodeNotFound then (([], d), h2)
      else match e with
           | Some e => ((FromErr e, d), h2)
           | None =>
               match Action_Wait client h2 action (network r) with
               | Some e => ((FromErr e, d), CallWaitForNetworkAction action (network r) :: h2)
               | None => (([], d), CallWaitForNetworkAction action (network r) :: h2)
               end
           end
  end.
Proof.
  unfold resourceServerNetworkDelete, bind.
  destruct (lookupServerNetworkID client (Id d) h) as [r h1].
  destruct (err r) as [e|]; [reflexivity|].
  rewrite (retry_ext _ _ _ _ (detachAttempt_shape client (server r) (network r))).
  destruct (retry _ _ _) as [e [action h2]].
  destruct (IsError e ErrorCodeNotFound); [reflexivity|].
  destruct e as [e|]; [reflexivity|].
  unfold waitForNetworkAction, ret.
  destruct (Action_Wait client h2 action (network r)); reflexivity.
Qed.

(** X15.  When every try meets a conflict or a lock, delete reports the last
    of these errors. *)
Lemma delete_exhausted {IP : Type} (maxTries : nat) (client : @Client IP)
    (d : ResourceData) (h : Trace) (e : error) :
  let r := fst (lookupServerNetworkID client (Id d) h) in
  let h1 := snd (lookupServerNetworkID client (Id d) h) in
  let opts := {| Detach_Network := network r |} in
  let ev := CallDetachFromNetwork (server r) opts in
  let answer j := Server_DetachFromNetwork client (after j ev h1) (server r) opts in
  err r = None ->
  (forall j, (j < S maxTries)%nat -> retryable (snd (answer j)) = true) ->
  snd (answer maxTries) = Some e ->
  resourceServerNetworkDelete (S maxTries) client d h
  = ((FromErr e, d), after (S maxTries) ev h1).
Proof.
  intros r h1 opts ev answer. subst answer ev opts h1 r.
  rewrite Delete_unfold.
  destruct (lookupServerNetworkID client (Id d) h) as [r h1]. cbn [fst snd].
  intros Herr Hk He. rewrite Herr. cbv zeta.
  rewrite (retry_exhausted _ _ maxTries None h1 Hk).
  rewrite (retryable_not_notFound _ (Hk maxTries (Nat.lt_succ_diag_r _))).
  rewrite He. reflexivity.
Qed.

(** C8.  Delete, with [r] what the resolver returns at the trace [h1]:
    - when the resolver returns any error, delete writes its warning,
      empties the identifier of the local record and reports no error,
      without a detach call;
    - when the cloud answers the detach call, possibly after some
      conflicts or locks and with a try left, with "not found", delete
      reports no error and waits for nothing;
    - an error that delete does report was the answer of the cloud to a
      detach call, and not a "not found", or the outcome of the wait for
      the action;
    - when the cloud answers the detach call, in the same way, with any
      other error that is no conflict and no lock, delete reports that
      error and waits for nothing;
    - when the cloud accepts the detach call, in the same way, delete
      waits for the action and reports a failed wait;
    - when every try meets a conflict or a lock, delete reports the
      last of them. *)
Theorem delete_tolerates_gone {IP : Type} (defaultMaxRetries : nat)
    (client : @Client IP) (d : ResourceData) (h : Trace) :
  let r := fst (lookupServerNetworkID client (Id d) h) in
  let h1 := snd (lookupServerNetworkID client (Id d) h) in
  let opts := {| Detach_Network := network r |} in
  let ev := CallDetachFromNetwork (server r) opts in
  let answer j := Server_DetachFromNetwork client (after j ev h1) (server r) opts in
  (err r <> None ->
   resourceServerNetworkDelete defaultMaxRetries client d h
   = (([], SetId d ""), Log (WarnInvalidID (Id d) (err r)) :: h1)) /\
  (forall k,
      err r = None ->
      (forall j, (j < k)%nat -> retryable (snd (answer j)) = true) ->
      (k < defaultMaxRetries)%nat ->
      IsError (snd (answer k)) ErrorCodeNotFound = true ->
      resourceServerNetworkDelete defaultMaxRetries client d h
      = (([], d), after (S k) ev h1)) /\
  (forall e,
      In e (fst (fst (resourceServerNetworkDelete defaultMaxRetries client d h))) ->
      (exists h' srv o,
          snd (Server_DetachFromNetwork client h' srv o) = Some e /\
          IsError (Some e) ErrorCodeNotFound = false) \/
      (exists h' a nw, Action_Wait client h' a nw = Some e)) /\
  (forall k e,
      err r = None ->
      (forall j, (j < k)%nat -> retryable (snd (answer j)) = true) ->
      (k < defaultMaxRetries)%nat ->
      snd (answer k) = Some e ->
      retryable (Some e) = false ->
      IsError (Some e) ErrorCodeNotFound = false ->
      resourceServerNetworkDelete defaultMaxRetries client d h
      = ((FromErr e, d), after (S k) ev h1)) /\
  (forall k a,
      err r = None ->
      (forall j, (j < k)%nat -> retryable (snd (answer j)) = true) ->
      (k < defaultMaxRetries)%nat ->
      answer k = (a, None) ->
      resourceServerNetworkDelete defaultMaxRetries client d h
      = ((match Action_Wait client (after (S k) ev h1) a (network r) with
          | Some e => FromErr e
          | None => []
          end, d),
         CallWaitForNetworkAction a (network r) :: after (S k) ev h1)) /\
  (forall m e,
      err r = None ->
      defaultMaxRetries = S m ->
      (forall j, (j < S m)%nat -> retryable (snd (answer j)) = true) ->
      snd (answer m) = Some e ->
      resourceServerNetworkDelete defaultMaxRetries client d h
      = ((FromErr e, d), after (S m) ev h1)).
Proof.
  intros r h1 opts ev answer. subst answer ev opts h1 r.
  rewrite Delete_unfold.
  destruct (lookupServerNetworkID client (Id d) h) as [r h1]. cbn [fst snd].
  split; [|split; [|split; [|split; [|split]]]].
  - intros Herr. destruct (err r) as [e|]; [reflexivity|contradiction].
  - intros k Herr Hk Hlt Hnf. rewrite Herr. cbv zeta.
    rewrite (retry_ends _ _ defaultMaxRetries k None h1 Hk Hlt
                        (notFound_not_retryable _ Hnf)).
    rewrite Hnf. reflexivity.
  - intros e. destruct (err r) as [e0|]; [intros []|]. cbv zeta.
    pose proof (retryLoop_error_origin
                  (fun h => Server_DetachFromNetwork client h (server r)
                              {| Detach_Network := network r |})
                  (CallDetachFromNetwork (server r) {| Detach_Network := network r |})
                  defaultMaxRetries None None h1) as Horigin.
    unfold retry.
    destruct (retryLoop defaultMaxRetries _ None (None, h1)) as [e1 [action h2]].
    cbn [fst] in Horigin.
    destruct (IsError e1 ErrorCodeNotFound) eqn:Hnf; [intros []|].
    destruct e1 as [e1|].
    + intros [<-|[]]. left.
      destruct (Horigin e1 eq_refl) as [Hl|[h' Hh']]; [discriminate Hl|].
      exists h', (server r), {| Detach_Network := network r |}. now split.
    + destruct (Action_Wait client h2 action (network r)) as [e2|] eqn:Hw; [|intros []].
      intros [<-|[]]. right. now exists h2, action, (network r).
  - intros k e Herr Hk Hlt He Hr Hnf. rewrite Herr. cbv zeta.
    rewrite (retry_ends _ _ defaultMaxRetries k None h1 Hk Hlt)
      by (rewrite He; exact Hr).
    rewrite He, Hnf. reflexivity.
  - intros k a Herr Hk Hlt Hans. rewrite Herr. cbv zeta.
    rewrite (retry_ends _ _ defaultMaxRetries k None h1 Hk Hlt)
      by (rewrite Hans; reflexivity).
    rewrite Hans. cbn [fst snd IsError].
    destruct (Action_Wait client _ a (network r)); reflexivity.
  - intros m e Herr -> Hk He. rewrite Herr. cbv zeta.
    rewrite (retry_exhausted _ _ m None h1 Hk).
    rewrite (retryable_not_notFound _ (Hk m (Nat.lt_succ_diag_r _))).
    rewrite He. reflexivity.
Qed.

(** ** Update *)

(** X8.  On the sentinel, which stands for a bad identifier, a missing server
    and a missing network alike, update drops the local record and
    calls nothing. *)
Lemma Update_invalid_drops {IP : Type} (ParseIP : string -> IP) (IPString : IP -> string)
    (mergeStringSlice : list string -> list string -> list string)
    (setList : list string -> list string)
    (client : @Client IP) (d : ResourceData) (h : Trace) :
  err (fst (lookupServerNetworkID client (Id d) h)) = Some errInvalidServerNetworkID ->
  resourceServerNetworkUpdate ParseIP IPString mergeStringSlice setList client d h
  = (([], SetId d ""),
     Log (WarnInvalidID (Id d) (Some errInvalidServerNetworkID))
       :: snd (lookupServerNetworkID client (Id d) h)).
Proof.
  unfold resourceServerNetworkUpdate, bind.
  destruct (lookupServerNetworkID client (Id d) h) as [r h1]. cbn [fst snd].
  intros ->. reflexivity.
Qed.

(** An error of the change call ends update at once, whatever its code:
    the call is made once and its error is reported. *)
Lemma Update_change_error {IP : Type} (ParseIP : string -> IP) (IPString : IP -> string)
    (mergeStringSlice : list string -> list string -> list string)
    (setList : list string -> list string)
    (client : @Client IP) (d : ResourceData) (h : Trace)
    (srv : Server) (nw : Network) (a : option Action) (e : error) :
  let r := fst (lookupServerNetworkID client (Id d) h) in
  let h1 := snd (lookupServerNetworkID client (Id d) h) in
  let opts := {| ChangeAlias_Network := Some nw;
                 ChangeAlias_AliasIPs := map ParseIP (alias_ips d) |} in
  err r = None -> server r = Some srv -> network r = Some nw ->
  alias_ips_changed d = true ->
  Server_ChangeAliasIPs client h1 (Some srv) opts = (a, Some e) ->
  resourceServerNetworkUpdate ParseIP IPString mergeStringSlice setList client d h
  = ((FromErr e, d), CallChangeAliasIPs (Some srv) opts :: h1).
Proof.
  unfold resourceServerNetworkUpdate, bind.
  destruct (lookupServerNetworkID client (Id d) h) as [r h1]. cbn [fst snd].
  intros He Hs Hn Hc Hcall. rewrite He, Hs, Hn, Hc. cbn [isInvalidServerNetworkID].
  unfold ChangeAliasIPs. rewrite Hcall. reflexivity.
Qed.

(** C1, on the code: the attachment of server 5 to network 100 with
    changed alias IPs, against a cloud that finds the resource locked
    at the first mutating call and would accept the second.  Update
    calls [Server.ChangeAliasIPs] directly, not through [retry]: it
    makes the call once and reports the lock.  Attach, whose call is
    wrapped in [retry], gets over the same lock with a second call. *)
Theorem update_locked_surfaces_at_once :
  let client := scriptedClient (lockedThen 1 (Some action1, None)) in
  let d := declared "5-100" 5 true in
  let opts := {| ChangeAlias_Network := Some network100;
                 ChangeAlias_AliasIPs := ["10.0.0.5"; "10.0.0.6"] |} in
  let h := [CallChangeAliasIPs (Some server5) opts;
            CallNetworkGetByID 100; CallServerGetByID 5] in
  let attach := {| Attach_Network := Some network100; Attach_IP := "10.0.0.2";
                   Attach_AliasIPs := ["10.0.0.5"] |} in
  resourceServerNetworkUpdate (fun s => s) (fun s => s) mergeSlices setOf client d []
  = (([locked], d), h) /\
  IsError (Some locked) ErrorCodeLocked = true /\
  countEvents isChangeAlias h = 1%nat /\
  Server_ChangeAliasIPs client h (Some server5) opts = (Some action1, None) /\
  attachServerToNetwork 5 client server5 network100 "10.0.0.2" ["10.0.0.5"] []
  = (None, [CallWaitForNetworkAction (Some action1) (Some network100);
            CallAttachToNetwork (Some server5) attach;
            CallAttachToNetwork (Some server5) attach]).
Proof. repeat split. Qed.

(** C2, on the code: server 7 and network 100 exist, server 7 is not
    attached to network 100, and the alias IPs have changed.  The
    resolver returns a nil membership with a nil error; update does not
    look at the membership and issues the change call.  Against a cloud
    that accepts the call, the record is dropped only by the read that
    follows; against a cloud that refuses it, update reports the error
    and keeps the record. *)
Theorem update_membership_absent_calls_cloud :
  let d := declared "7-100" 7 true in
  let opts := {| ChangeAlias_Network := Some network100;
                 ChangeAlias_AliasIPs := ["10.0.0.5"; "10.0.0.6"] |} in
  lookupServerNetworkID (scriptedClient calm) "7-100" []
  = ({| server := Some server7; network := Some network100;
        serverPrivateNet := None; err := None |},
     [CallNetworkGetByID 100; CallServerGetByID 7]) /\
  resourceServerNetworkUpdate (fun s => s) (fun s => s) mergeSlices setOf
    (scriptedClient calm) d []
  = (([], SetId d ""),
     [Log (WarnAttachmentNotFound "7-100");
      CallNetworkGetByID 100; CallServerGetByID 7;
      CallWaitForNetworkAction (Some action1) (Some network100);
      CallChangeAliasIPs (Some server7) opts;
      CallNetworkGetByID 100; CallServerGetByID 7]) /\
  resourceServerNetworkUpdate (fun s => s) (fun s => s) mergeSlices setOf
    (scriptedClient (busyThen 0 (None, Some notAttached))) d []
  = (([notAttached], d),
     [CallChangeAliasIPs (Some server7) opts;
      CallNetworkGetByID 100; CallServerGetByID 7]).
Proof. repeat split. Qed.

(** Read on the same attachment drops the record and calls nothing but
    the two fetches. *)
Example read_membership_absent_drops :
  let d := declared "7-100" 7 true in
  resourceServerNetworkRead (fun s => s) mergeSlices setOf (scriptedClient calm) d []
  = (([], SetId d ""),
     [Log (WarnAttachmentNotFound "7-100");
      CallNetworkGetByID 100; CallServerGetByID 7]).
Proof. reflexivity. Qed.

(** Read on a live attachment keeps the declared order of the alias IPs. *)
Example read_attached :
  let d := declared "5-100" 5 false in
  fst (resourceServerNetworkRead (fun s => s) mergeSlices setOf (scriptedClient calm) d [])
  = ([], {| Id := "5-100"; network_id := 100; subnet_id := ""; server_id := 5;
            ip := "10.0.0.2"; alias_ips := ["10.0.0.5"];
            mac_address := "86:00:00:2a:7b:01"; alias_ips_changed := false |}).
Proof. reflexivity. Qed.

(** * Further properties of the resource *)

(** ** The identity codec on all of [int] *)

Lemma Atoi_FormatInt_negative (i : Z) :
  minInt <= i < 0 -> Atoi (FormatInt i) = Some i.
Proof.
  intros Hi. unfold FormatInt.
  destruct (i <? 0) eqn:E; [|apply Z.ltb_ge in E; lia].
  destruct (formatBits_digits 19 (- i) "" ltac:(lia)) as (ch & ds & Heq & Hall).
  assert (Hp : parseDigits (formatBits 20 (- i) "") 0 = Some (- i)).
  { rewrite parseDigits_formatBits; [reflexivity|]. unfold minInt in Hi.
    change (10 ^ Z.of_nat 20) with 100000000000000000000. lia. }
  rewrite Heq in Hp |- *. unfold Atoi. cbn [append] in Hp |- *.
  rewrite Ascii.eqb_refl. cbn [orb]. rewrite Hp.
  replace (- - i) with i by lia.
  replace ((minInt <=? i) && (i <=? maxInt)) with true; [reflexivity|].
  symmetry. apply andb_true_intro. unfold maxInt. split; apply Z.leb_le; lia.
Qed.

Lemma Atoi_FormatInt_int (i : Z) :
  minInt <= i <= maxInt -> Atoi (FormatInt i) = Some i.
Proof.
  intros Hi. destruct (Z.lt_ge_cases i 0).
  - apply Atoi_FormatInt_negative. lia.
  - apply Atoi_FormatInt. lia.
Qed.

(** The two numbers printed around a dash, read back. *)
Lemma decode_printed (s n : Z) :
  minInt <= s <= maxInt -> minInt <= n <= maxInt ->
  decode (FormatInt s ++ String dash (FormatInt n))
  = if s <? 0 then None else Some (s, n).
Proof.
  intros Hs Hn. destruct (s <? 0) eqn:E.
  - unfold FormatInt at 1. rewrite E.
    change (String dash (formatBits 20 (- s) "") ++ String dash (FormatInt n))%string
      with ("" ++ String dash (formatBits 20 (- s) "" ++ String dash (FormatInt n)))%string.
    rewrite decode_split by reflexivity. reflexivity.
  - apply Z.ltb_ge in E.
    rewrite decode_split by (apply FormatInt_noDash; lia).
    rewrite Atoi_FormatInt by lia. rewrite Atoi_FormatInt_int by exact Hn.
    reflexivity.
Qed.

(** X1.  The identifier of a server and a network with Go [int] identifiers
    decodes to the two identifiers exactly when the server's is not
    negative, whatever the sign of the network's; with a negative
    server identifier it starts with a dash and does not decode. *)
Theorem decode_generate_exact {IP : Type} (srv : @Server IP) (nw : Network) :
  minInt <= Server_ID srv <= maxInt ->
  minInt <= Network_ID nw <= maxInt ->
  decode (generateServerNetworkID srv nw)
  = if Server_ID srv <? 0 then None else Some (Server_ID srv, Network_ID nw).
Proof.
  intros Hs Hn. exact (decode_printed _ _ Hs Hn).
Qed.

(** X2.  Two attachments with the same identifier have the same server and
    the same network identifier, when the server identifiers are not
    negative. *)
Theorem generateServerNetworkID_injective {IP : Type} (srv srv' : @Server IP)
    (nw nw' : Network) :
  0 <= Server_ID srv <= maxInt -> 0 <= Server_ID srv' <= maxInt ->
  minInt <= Network_ID nw <= maxInt -> minInt <= Network_ID nw' <= maxInt ->
  generateServerNetworkID srv nw = generateServerNetworkID srv' nw' ->
  Server_ID srv = Server_ID srv' /\ Network_ID nw = Network_ID nw'.
Proof.
  intros Hs Hs' Hn Hn' E.
  assert (D : decode (generateServerNetworkID srv nw)
              = decode (generateServerNetworkID srv' nw')) by now rewrite E.
  unfold generateServerNetworkID in D.
  change (decode (FormatInt (Server_ID srv) ++ String dash (FormatInt (Network_ID nw)))
          = decode (FormatInt (Server_ID srv') ++ String dash (FormatInt (Network_ID nw'))))
    in D.
  unfold minInt in *.
  rewrite !decode_printed in D by (unfold minInt; lia).
  replace (Server_ID srv <? 0) with false in D by (symmetry; apply Z.ltb_ge; lia).
  replace (Server_ID srv' <? 0) with false in D by (symmetry; apply Z.ltb_ge; lia).
  now inversion D.
Qed.

(** ** More on the resolver *)

Lemma findPrivateNet_first {IP : Type} (pns : list (@ServerPrivateNet IP)) (nw : Network)
    (pn : ServerPrivateNet) :
  findPrivateNet pns nw = Some pn ->
  exists before rest,
    pns = (before ++ pn :: rest)%list /\
    Network_ID (PrivateNet_Network pn) = Network_ID nw /\
    forall q, In q before -> Network_ID (PrivateNet_Network q) <> Network_ID nw.
Proof.
  induction pns as [|p rest IH]; cbn [findPrivateNet]; [discriminate|].
  destruct (Z.eqb_spec (Network_ID (PrivateNet_Network p)) (Network_ID nw)) as [E|E].
  - intros [= <-]. exists [], rest. split; [reflexivity|]. split; [exact E|intros q []].
  - intros H. destruct (IH H) as (before & rest' & -> & Hid & Hb).
    exists (p :: before), rest'. split; [reflexivity|]. split; [exact Hid|].
    intros q [<-|Hq]; [exact E|exact (Hb q Hq)].
Qed.

(** X4.  A membership the resolver returns belongs to the server and the
    network it returns with it: it is the first entry of the server's
    private networks that carries the network's identifier, and the
    error is the one of the network fetch. *)
Theorem lookup_membership_belongs {IP : Type} (client : @Client IP) (id : string)
    (h : Trace) (pn : ServerPrivateNet) :
  serverPrivateNet (fst (lookupServerNetworkID client id h)) = Some pn ->
  exists s n before rest,
    server (fst (lookupServerNetworkID client id h)) = Some s /\
    network (fst (lookupServerNetworkID client id h)) = Some n /\
    Server_PrivateNet s = (before ++ pn :: rest)%list /\
    Network_ID (PrivateNet_Network pn) = Network_ID n /\
    forall q, In q before -> Network_ID (PrivateNet_Network q) <> Network_ID n.
Proof.
  destruct (id_shape id) as [->|[H|(p0 & p1 & -> & H0)]].
  - discriminate.
  - rewrite lookup_noDash by exact H. discriminate.
  - rewrite lookup_split by exact H0.
    destruct (Atoi p0) as [sid|]; [|discriminate]. cbv zeta.
    destruct (Server_GetByID client h sid) as [[s|] [e|]]; try discriminate.
    destruct (Atoi p1) as [nid|]; [|discriminate].
    destruct (Network_GetByID client _ nid) as [[n|] e']; [|discriminate].
    cbn [fst serverPrivateNet server network]. intros Hf.
    destruct (findPrivateNet_first _ _ _ Hf) as (before & rest & Hl & Hid & Hb).
    now exists s, n, before, rest.
Qed.

(** The error of the resolver is nil, the sentinel, or an error that a
    network fetch returned together with a network. *)
Lemma lookup_err_cases {IP : Type} (client : @Client IP) (id : string) (h : Trace) :
  err (fst (lookupServerNetworkID client id h)) = None \/
  err (fst (lookupServerNetworkID client id h)) = Some errInvalidServerNetworkID \/
  exists h' nid n e,
    Network_GetByID client h' nid = (Some n, Some e) /\
    err (fst (lookupServerNetworkID client id h)) = Some e.
Proof.
  destruct (id_shape id) as [->|[H|(p0 & p1 & -> & H0)]].
  - right. left. reflexivity.
  - rewrite lookup_noDash by exact H. right. left. reflexivity.
  - rewrite lookup_split by exact H0.
    destruct (Atoi p0) as [sid|]; [|right; left; reflexivity]. cbv zeta.
    destruct (Server_GetByID client h sid) as [[s|] [e|]];
      try (right; left; reflexivity).
    destruct (Atoi p1) as [nid|]; [|right; left; reflexivity].
    destruct (Network_GetByID client _ nid) as [[n|] [e'|]] eqn:En;
      try (right; left; reflexivity).
    + right. right. now exists (CallServerGetByID sid :: h), nid, n, e'.
    + left. reflexivity.
Qed.

(** ** More on read *)

Lemma lookup_mutations {IP : Type} (client : @Client IP) (id : string) (h : Trace) :
  filter isMutation (snd (lookupServerNetworkID client id h)) = filter isMutation h.
Proof.
  destruct (lookup_trace client id h) as [->|[[sid ->]|(sid & nid & ->)]]; reflexivity.
Qed.

Lemma Read_mutations {IP : Type} (IPString : IP -> string)
    (mergeStringSlice : list string -> list string -> list string)
    (setList : list string -> list string)
    (client : @Client IP) (d : ResourceData) (h : Trace) :
  filter isMutation
    (snd (resourceServerNetworkRead IPString mergeStringSlice setList client d h))
  = filter isMutation h.
Proof.
  unfold resourceServerNetworkRead, bind.
  pose proof (lookup_mutations client (Id d) h) as Hm.
  destruct (lookupServerNetworkID client (Id d) h) as [r h']. cbn [snd] in Hm.
  destruct (isInvalidServerNetworkID (err r)); [exact Hm|].
  destruct (err r); [exact Hm|].
  destruct (server r); [|exact Hm].
  destruct (network r); [|exact Hm].
  destruct (serverPrivateNet r); exact Hm.
Qed.

(** X5.  Against a client that never returns a network together with an
    error, as [hcloud-go] does not, read reports no error at all: every
    failure of the resolver ends in dropping the record. *)
Theorem Read_reports_no_error {IP : Type} (IPString : IP -> string)
    (mergeStringSlice : list string -> list string -> list string)
    (setList : list string -> list string)
    (client : @Client IP) (d : ResourceData) (h : Trace) :
  (forall h' nid n e, Network_GetByID client h' nid <> (Some n, Some e)) ->
  fst (fst (resourceServerNetworkRead IPString mergeStringSlice setList client d h)) = [].
Proof.
  intros Hclient. unfold resourceServerNetworkRead, bind.
  pose proof (lookup_err_cases client (Id d) h) as Herr.
  destruct (lookupServerNetworkID client (Id d) h) as [r h']. cbn [fst] in Herr.
  destruct Herr as [He|[He|(h2 & nid & n & e & Hn & _)]].
  - rewrite He. cbn [isInvalidServerNetworkID].
    destruct (server r); [|reflexivity].
    destruct (network r); [|reflexivity].
    destruct (serverPrivateNet r); reflexivity.
  - rewrite He. reflexivity.
  - destruct (Hclient _ _ _ _ Hn).
Qed.

(** X6.  What read leaves behind.  Either the resolver returned the sentinel
    or no membership, and the identifier of the record is emptied; or
    the resolver returned another error, which is reported while the
    record stays as it was; or the attachment was found, and the record
    gets the identifier generated from the server and the network the
    cloud returned, whatever spelling the old identifier had, together
    with the server's identifier and the membership's address.  Its
    alias IPs are then the set of the merged addresses: what can be
    read back is the listing of that set, not the merged list. *)
Theorem Read_outcome {IP : Type} (IPString : IP -> string)
    (mergeStringSlice : list string -> list string -> list string)
    (setList : list string -> list string)
    (client : @Client IP) (d : ResourceData) (h : Trace) :
  let r := fst (lookupServerNetworkID client (Id d) h) in
  let out := fst (resourceServerNetworkRead IPString mergeStringSlice setList client d h) in
  (fst out = [] /\ snd out = SetId d "" /\
   (err r = Some errInvalidServerNetworkID \/
    (err r = None /\ serverPrivateNet r = None))) \/
  (exists e, err r = Some e /\ e <> errInvalidServerNetworkID /\
             fst out = [e] /\ snd out = d) \/
  (exists s n pn,
      err r = None /\ server r = Some s /\ network r = Some n /\
      serverPrivateNet r = Some pn /\
      fst out = [] /\
      Id (snd out) = generateServerNetworkID s n /\
      server_id (snd out) = Server_ID s /\
      ip (snd out) = IPString (PrivateNet_IP pn) /\
      mac_address (snd out) = PrivateNet_MACAddress pn /\
      alias_ips (snd out)
      = setList (mergeStringSlice (alias_ips d)
                   (map IPString (PrivateNet_Aliases pn))) /\
      subnet_id (snd out) = subnet_id d /\
      network_id (snd out)
      = if String.eqb (subnet_id d) "" then Network_ID n else network_id d).
Proof.
  intros r out. subst out r. unfold resourceServerNetworkRead, bind.
  pose proof (lookup_nil_invalid client (Id d) h) as Hnil.
  destruct (lookupServerNetworkID client (Id d) h) as [r h']. cbn [fst] in Hnil |- *.
  destruct (err r) as [e|] eqn:He.
  - destruct e; try (right; left; eexists; repeat split; [discriminate]).
    left. repeat split. now left.
  - cbn [isInvalidServerNetworkID].
    destruct (server r) as [s|]; [|discriminate Hnil; now left].
    destruct (network r) as [n|]; [|discriminate Hnil; now right].
    destruct (serverPrivateNet r) as [pn|].
    + right. right. exists s, n, pn. cbn [ret fst snd].
      repeat split; unfold setServerNetworkSchema;
        cbn [SetId Set_ip Set_alias_ips Set_mac_address subnet_id alias_ips];
        destruct (String.eqb (subnet_id d) ""); reflexivity.
    + left. repeat split. now right.
Qed.

(** ** How far the retry loop can go *)

(** The loop only ever repeats its one call, at most [tries] times, and
    at least once when it has a try at all. *)
Lemma retryLoop_trace {IP : Type} (ask : @Trace IP -> option Action * option error)
    (ev : Event) (tries : nat) : forall (last : option error) (a0 : option Action)
    (h : Trace),
  exists j,
    (j <= tries)%nat /\ ((0 < tries)%nat -> (0 < j)%nat) /\
    (j = O -> fst (retryLoop tries (attemptOf ask ev) last (a0, h)) = last) /\
    snd (snd (retryLoop tries (attemptOf ask ev) last (a0, h))) = after j ev h.
Proof.
  induction tries as [|tries IH]; intros last a0 h.
  - exists O. split; [lia|]. split; [lia|]. split; reflexivity.
  - destruct (retryable (snd (ask h))) eqn:Hr.
    + rewrite retryLoop_again by exact Hr.
      destruct (IH (snd (ask h)) (fst (ask h)) (ev :: h)) as (j & Hj & _ & _ & Ht).
      exists (S j). rewrite after_S.
      split; [lia|]. split; [lia|]. split; [discriminate|exact Ht].
    + rewrite retryLoop_done by exact Hr. exists 1%nat.
      split; [lia|]. split; [lia|]. split; [discriminate|reflexivity].
Qed.

Lemma countEvents_after {IP : Type} (p : @Event IP -> bool) (j : nat) (ev : Event)
    (h : Trace) :
  countEvents p (after j ev h)
  = ((if p ev then j else O) + countEvents p h)%nat.
Proof.
  unfold countEvents, after. induction j as [|j IH]; [now destruct (p ev)|].
  cbn [repeat app filter]. destruct (p ev) eqn:E; cbn [List.length]; rewrite IH; lia.
Qed.

(** ** More on attach *)

(** The trace of attach: the attach call, repeated, then at most one
    further event, which is the wait or the info line. *)
Lemma attach_trace_shape {IP : Type} (maxTries : nat) (client : @Client IP)
    (srv : Server) (nw : Network) (ip : IP) (aliasIPs : list IP) (h : Trace) :
  let opts := {| Attach_Network := Some nw; Attach_IP := ip;
                 Attach_AliasIPs := aliasIPs |} in
  let ev := CallAttachToNetwork (Some srv) opts in
  let out := attachServerToNetwork maxTries client srv nw ip aliasIPs h in
  exists j,
    (j <= maxTries)%nat /\
    ((exists e, fst out = Some e /\ snd out = after j ev h /\ (0 < j)%nat) \/
     (fst out = None /\
      snd out = Log (InfoAlreadyAttached (Server_ID srv) (Network_ID nw)) :: after j ev h) \/
     (exists a, snd out = CallWaitForNetworkAction a (Some nw) :: after j ev h /\
                match Action_Wait client (after j ev h) a (Some nw) with
                | Some e => fst out = Some (Errorf "attach server to network" e)
                | None => fst out = None
                end)).
Proof.
  intros opts ev out. subst out. unfold attachServerToNetwork. fold opts.
  rewrite (retry_ext _ _ _ _ (attachAttempt_shape client (Some srv) opts)).
  unfold retry.
  destruct (retryLoop_trace (fun h => Server_AttachToNetwork client h (Some srv) opts)
                            ev maxTries None None h) as (j & Hj & _ & Hzero & Ht).
  destruct (retryLoop maxTries _ None (None, h)) as [e [a h']].
  cbn [fst snd] in Ht, Hzero. subst h'. exists j. split; [exact Hj|].
  destruct (IsError e ErrorCodeServerAlreadyAttached).
  - right. left. split; reflexivity.
  - destruct e as [e|].
    + left. eexists. split; [reflexivity|]. split; [reflexivity|].
      destruct j; [discriminate (Hzero eq_refl)|lia].
    + right. right. exists a. unfold bind, waitForNetworkAction, ret. cbn [fst snd].
      split.
      * destruct (Action_Wait client (after j ev h) a (Some nw)); reflexivity.
      * destruct (Action_Wait client (after j ev h) a (Some nw)); reflexivity.
Qed.

Lemma countEvents_cons {IP : Type} (p : @Event IP -> bool) (e : Event) (h : Trace) :
  countEvents p (e :: h) = ((if p e then 1 else 0) + countEvents p h)%nat.
Proof. unfold countEvents. cbn [filter]. destruct (p e); reflexivity. Qed.

Ltac count_events :=
  rewrite ?countEvents_cons, ?countEvents_after;
  cbn [isAttach isWait isChangeAlias isDetach isFetch isMutation];
  repeat split; lia.

(** X10.  Attach makes no more attach calls than the retry bound and waits at
    most once; it never changes alias IPs, detaches or fetches. *)
Theorem attach_calls_bounded {IP : Type} (maxTries : nat) (client : @Client IP)
    (srv : Server) (nw : Network) (ip : IP) (aliasIPs : list IP) (h : Trace) :
  let h' := snd (attachServerToNetwork maxTries client srv nw ip aliasIPs h) in
  (countEvents isAttach h' <= countEvents isAttach h + maxTries)%nat /\
  (countEvents isWait h' <= countEvents isWait h + 1)%nat /\
  countEvents isChangeAlias h' = countEvents isChangeAlias h /\
  countEvents isDetach h' = countEvents isDetach h /\
  countEvents isFetch h' = countEvents isFetch h.
Proof.
  intros h'. subst h'.
  destruct (attach_trace_shape maxTries client srv nw ip aliasIPs h)
    as (j & Hj & [(e & _ & -> & _)|[(_ & ->)|(a & -> & _)]]); count_events.
Qed.

(** X11.  When attach reports success, it has either been told that the
    server is already attached, or waited for the action of its last
    attach call and seen it end well. *)
Theorem attach_success_means_waited {IP : Type} (maxTries : nat) (client : @Client IP)
    (srv : Server) (nw : Network) (ip : IP) (aliasIPs : list IP) (h : Trace) :
  fst (attachServerToNetwork maxTries client srv nw ip aliasIPs h) = None ->
  (exists h',
      snd (attachServerToNetwork maxTries client srv nw ip aliasIPs h)
      = Log (InfoAlreadyAttached (Server_ID srv) (Network_ID nw)) :: h') \/
  (exists a h',
      snd (attachServerToNetwork maxTries client srv nw ip aliasIPs h)
      = CallWaitForNetworkAction a (Some nw) :: h' /\
      Action_Wait client h' a (Some nw) = None).
Proof.
  intros Hok.
  destruct (attach_trace_shape maxTries client srv nw ip aliasIPs h)
    as (j & Hj & [(e & He & _)|[(_ & Ht)|(a & Ht & Hw)]]).
  - rewrite Hok in He. discriminate He.
  - left. eexists. exact Ht.
  - right. exists a. eexists. split; [exact Ht|].
    destruct (Action_Wait client _ a (Some nw)) as [e|]; [|reflexivity].
    rewrite Hok in Hw. discriminate Hw.
Qed.

(** X12.  When the cloud accepts the attach call, possibly after some
    conflicts or locks and with a try left, attach waits for the action
    of that answer, on the network it attached to; a failed wait comes
    back inside "attach server to network: ...". *)
Theorem attach_accepted_waits {IP : Type} (defaultMaxRetries : nat)
    (client : @Client IP) (srv : Server) (nw : Network) (ip : IP)
    (aliasIPs : list IP) (h : Trace) (k : nat) (a : option Action) :
  let opts := {| Attach_Network := Some nw; Attach_IP := ip;
                 Attach_AliasIPs := aliasIPs |} in
  let ev := CallAttachToNetwork (Some srv) opts in
  let answer j := Server_AttachToNetwork client (after j ev h) (Some srv) opts in
  (forall j, (j < k)%nat -> retryable (snd (answer j)) = true) ->
  (k < defaultMaxRetries)%nat ->
  answer k = (a, None) ->
  attachServerToNetwork defaultMaxRetries client srv nw ip aliasIPs h
  = (match Action_Wait client (after (S k) ev h) a (Some nw) with
     | Some e => Some (Errorf "attach server to network" e)
     | None => None
     end,
     CallWaitForNetworkAction a (Some nw) :: after (S k) ev h).
Proof.
  intros opts ev answer Hk Hlt Hans.
  assert (Hrun : retry defaultMaxRetries (attachAttempt client (Some srv) opts) (None, h)
                 = (snd (answer k), (fst (answer k), after (S k) ev h))).
  { rewrite (retry_ext _ _ _ _ (attachAttempt_shape client (Some srv) opts)).
    apply (retry_ends (fun h => Server_AttachToNetwork client h (Some srv) opts) ev
                      defaultMaxRetries k None h Hk Hlt).
    fold (answer k). rewrite Hans. reflexivity. }
  unfold attachServerToNetwork. fold opts. rewrite Hrun, Hans. cbn [fst snd IsError].
  unfold bind, waitForNetworkAction, ret.
  destruct (Action_Wait client _ a (Some nw)); reflexivity.
Qed.

(** ** More on delete *)

(** X14.  When the cloud accepts the detach call, possibly after some
    conflicts or locks and with a try left, delete waits for the action
    of that answer and reports a failed wait; in both cases the local
    record is returned as it was, identifier included. *)
Theorem delete_accepted_waits {IP : Type} (defaultMaxRetries : nat)
    (client : @Client IP) (d : ResourceData) (h : Trace) (k : nat)
    (a : option Action) :
  let r := fst (lookupServerNetworkID client (Id d) h) in
  let h1 := snd (lookupServerNetworkID client (Id d) h) in
  let opts := {| Detach_Network := network r |} in
  let ev := CallDetachFromNetwork (server r) opts in
  let answer j := Server_DetachFromNetwork client (after j ev h1) (server r) opts in
  err r = None ->
  (forall j, (j < k)%nat -> retryable (snd (answer j)) = true) ->
  (k < defaultMaxRetries)%nat ->
  answer k = (a, None) ->
  resourceServerNetworkDelete defaultMaxRetries client d h
  = ((match Action_Wait client (after (S k) ev h1) a (network r) with
      | Some e => FromErr e
      | None => []
      end, d),
     CallWaitForNetworkAction a (network r) :: after (S k) ev h1).
Proof.
  intros r h1 opts ev answer. subst answer ev opts h1 r.
  rewrite Delete_unfold.
  destruct (lookupServerNetworkID client (Id d) h) as [r h1]. cbn [fst snd].
  intros Herr Hk Hlt Hans. rewrite Herr. cbv zeta.
  rewrite (retry_ends _ _ defaultMaxRetries k None h1 Hk Hlt)
    by (rewrite Hans; reflexivity).
  rewrite Hans. cbn [fst snd IsError].
  destruct (Action_Wait client _ a (network r)); reflexivity.
Qed.

(** X16.  Delete makes no more detach calls than the retry bound, waits at
    most once, fetches no more than one server and one network, and
    never attaches or changes alias IPs. *)
Theorem delete_calls_bounded {IP : Type} (maxTries : nat) (client : @Client IP)
    (d : ResourceData) (h : Trace) :
  let h' := snd (resourceServerNetworkDelete maxTries client d h) in
  (countEvents isDetach h' <= countEvents isDetach h + maxTries)%nat /\
  (countEvents isWait h' <= countEvents isWait h + 1)%nat /\
  (countEvents isFetch h' <= countEvents isFetch h + 2)%nat /\
  countEvents isAttach h' = countEvents isAttach h /\
  countEvents isChangeAlias h' = countEvents isChangeAlias h.
Proof.
  intros h'. subst h'. rewrite Delete_unfold.
  pose proof (lookup_trace client (Id d) h) as Hl.
  destruct (lookupServerNetworkID client (Id d) h) as [r h1]. cbn [snd] in Hl.
  assert (H1 : (countEvents isDetach h1 = countEvents isDetach h /\
                countEvents isWait h1 = countEvents isWait h /\
                countEvents isFetch h1 <= countEvents isFetch h + 2 /\
                countEvents isAttach h1 = countEvents isAttach h /\
                countEvents isChangeAlias h1 = countEvents isChangeAlias h)%nat).
  { destruct Hl as [->|[[sid ->]|(sid & nid & ->)]]; count_events. }
  destruct H1 as (Hd & Hw & Hf & Ha & Hc).
  destruct (err r) as [e|].
  - cbn [snd]. rewrite !countEvents_cons. cbn [isDetach isWait isFetch isAttach isChangeAlias].
    repeat split; lia.
  - cbv zeta. unfold retry.
    destruct (retryLoop_trace
                (fun h => Server_DetachFromNetwork client h (server r)
                            {| Detach_Network := network r |})
                (CallDetachFromNetwork (server r) {| Detach_Network := network r |})
                maxTries None None h1) as (j & Hj & _ & _ & Ht).
    destruct (retryLoop maxTries _ None (None, h1)) as [e [a h2]].
    cbn [snd] in Ht. subst h2.
    destruct (IsError e ErrorCodeNotFound); [cbn [snd]; count_events|].
    destruct e as [e|]; [cbn [snd]; count_events|].
    destruct (Action_Wait client _ a (network r)); cbn [snd]; count_events.
Qed.

(** ** More on update *)

(** X7.  Read only fetches, and so does update when the alias IPs have not
    changed: neither attaches, changes alias IPs, detaches or waits. *)
Theorem idle_update_only_fetches {IP : Type} (ParseIP : string -> IP)
    (IPString : IP -> string)
    (mergeStringSlice : list string -> list string -> list string)
    (setList : list string -> list string)
    (client : @Client IP) (d : ResourceData) (h : Trace) :
  filter isMutation
    (snd (resourceServerNetworkRead IPString mergeStringSlice setList client d h))
  = filter isMutation h /\
  (alias_ips_changed d = false ->
   filter isMutation
     (snd (resourceServerNetworkUpdate ParseIP IPString mergeStringSlice setList client d h))
   = filter isMutation h).
Proof.
  split; [apply Read_mutations|].
  intros Hc. unfold resourceServerNetworkUpdate, bind.
  pose proof (lookup_mutations client (Id d) h) as Hm.
  destruct (lookupServerNetworkID client (Id d) h) as [r h']. cbn [snd] in Hm.
  destruct (isInvalidServerNetworkID (err r)); [exact Hm|].
  destruct (err r); [exact Hm|].
  destruct (server r); [|exact Hm].
  destruct (network r); [|exact Hm].
  rewrite Hc, Read_mutations. exact Hm.
Qed.

(** When the attachment is resolved, the alias IPs have changed and the
    cloud accepts the change call, update has asked for the parsed
    alias IPs of the record on the resolved server and network, waits
    for the action, and then either reports the failed wait, leaving
    the record as it was, or goes on to read. *)
Theorem Update_applies_change {IP : Type} (ParseIP : string -> IP)
    (IPString : IP -> string)
    (mergeStringSlice : list string -> list string -> list string)
    (setList : list string -> list string)
    (client : @Client IP) (d : ResourceData) (h : Trace)
    (srv : Server) (nw : Network) (a : option Action) :
  let r := fst (lookupServerNetworkID client (Id d) h) in
  let h1 := snd (lookupServerNetworkID client (Id d) h) in
  let opts := {| ChangeAlias_Network := Some nw;
                 ChangeAlias_AliasIPs := map ParseIP (alias_ips d) |} in
  let h2 := CallWaitForNetworkAction a (Some nw)
              :: CallChangeAliasIPs (Some srv) opts :: h1 in
  err r = None -> server r = Some srv -> network r = Some nw ->
  alias_ips_changed d = true ->
  Server_ChangeAliasIPs client h1 (Some srv) opts = (a, None) ->
  resourceServerNetworkUpdate ParseIP IPString mergeStringSlice setList client d h
  = match Action_Wait client (CallChangeAliasIPs (Some srv) opts :: h1) a (Some nw) with
    | Some e => ((FromErr e, d), h2)
    | None => resourceServerNetworkRead IPString mergeStringSlice setList client d h2
    end.
Proof.
  unfold resourceServerNetworkUpdate, bind.
  destruct (lookupServerNetworkID client (Id d) h) as [r h1]. cbn [fst snd].
  intros He Hs Hn Hc Hcall. rewrite He, Hs, Hn, Hc. cbn [isInvalidServerNetworkID].
  unfold ChangeAliasIPs, waitForNetworkAction. rewrite Hcall.
  destruct (Action_Wait client _ a (Some nw)); reflexivity.
Qed.

(** ** Create *)

(** The resolver on an identifier that decodes, path by path. *)
Lemma lookup_decoded {IP : Type} (client : @Client IP) (id : string) (h : Trace)
    (serverID networkID : Z) :
  decode id = Some (serverID, networkID) ->
  lookupServerNetworkID client id h =
  let h1 := CallServerGetByID serverID :: h in
  match Server_GetByID client h serverID with
  | (srv, Some _) => (invalidID srv, h1)
  | (None, None) => (invalidID None, h1)
  | (Some s, None) =>
      let h2 := CallNetworkGetByID networkID :: h1 in
      match Network_GetByID client h1 networkID with
      | (None, _) => (invalidID (Some s), h2)
      | (Some n, e) =>
          ({| server := Some s; network := Some n;
              serverPrivateNet := findPrivateNet (Server_PrivateNet s) n;
              err := e |}, h2)
      end
  end.
Proof.
  intros Hd.
  destruct (id_shape id) as [->|[H|(p0 & p1 & -> & H0)]].
  - discriminate Hd.
  - rewrite (proj2 (decode_None_cases id) (or_intror (or_introl H))) in Hd.
    discriminate Hd.
  - rewrite decode_split in Hd by exact H0. rewrite lookup_split by exact H0.
    destruct (Atoi p0) as [sid|]; [|discriminate Hd].
    destruct (Atoi p1) as [nid|]; [|discriminate Hd].
    injection Hd as -> ->. reflexivity.
Qed.

Lemma Read_trace_length {IP : Type} (IPString : IP -> string)
    (mergeStringSlice : list string -> list string -> list string)
    (setList : list string -> list string)
    (client : @Client IP) (d : ResourceData) (h : Trace) :
  (List.length h
   <= List.length (snd (resourceServerNetworkRead IPString mergeStringSlice setList client d h)))%nat.
Proof.
  unfold resourceServerNetworkRead, bind.
  pose proof (lookup_trace client (Id d) h) as Hl.
  destruct (lookupServerNetworkID client (Id d) h) as [r h1]. cbn [snd] in Hl.
  assert (H1 : (List.length h <= List.length h1)%nat).
  { destruct Hl as [->|[[sid ->]|(sid & nid & ->)]]; cbn [List.length]; lia. }
  destruct (isInvalidServerNetworkID (err r)); [cbn; lia|].
  destruct (err r); [cbn; lia|].
  destruct (server r); [|cbn; lia].
  destruct (network r); [|cbn; lia].
  destruct (serverPrivateNet r); cbn; lia.
Qed.

Lemma after_length {IP : Type} (j : nat) (ev : @Event IP) (h : Trace) :
  List.length (after j ev h) = (j + List.length h)%nat.
Proof. unfold after. now rewrite length_app, repeat_length. Qed.

Lemma attach_trace_length {IP : Type} (maxTries : nat) (client : @Client IP)
    (srv : Server) (nw : Network) (ip : IP) (aliasIPs : list IP) (h : Trace) :
  (List.length h
   < List.length (snd (attachServerToNetwork maxTries client srv nw ip aliasIPs h)))%nat.
Proof.
  destruct (attach_trace_shape maxTries client srv nw ip aliasIPs h)
    as (j & Hj & [(e & _ & -> & Hpos)|[(_ & ->)|(a & -> & _)]]);
    cbn [List.length]; rewrite after_length; lia.
Qed.

Ltac read_length H :=
  match goal with
  | |- context [resourceServerNetworkRead ?f ?g ?l ?c ?d ?h] =>
      pose proof (Read_trace_length f g l c d h) as H
  end.

(** X17.  Create contacts the cloud exactly when its input is valid: the
    trace is left as it was if and only if both or neither of
    [network_id] and [subnet_id] are set, or the subnet identifier does
    not parse; in these cases an error is reported and the record is
    returned untouched. *)
Theorem create_validates_before_calling {IP : Type} (ParseIP : string -> IP)
    (IPString : IP -> string)
    (mergeStringSlice : list string -> list string -> list string)
    (setList : list string -> list string)
    (defaultMaxRetries : nat) (parseNetworkSubnetID : string -> Z * option error)
    (client : @Client IP) (d : ResourceData) (h : Trace) :
  let out := resourceServerNetworkCreate ParseIP IPString mergeStringSlice setList
               defaultMaxRetries parseNetworkSubnetID client d h in
  let invalid :=
    nwIDSet d = snIDSet d \/
    (snIDSet d = true /\ snd (parseNetworkSubnetID (subnet_id d)) <> None) in
  (snd out = h <-> invalid) /\
  (invalid -> snd (fst out) = d /\ fst (fst out) <> []) /\
  (nwIDSet d = snIDSet d -> fst (fst out) = [errEitherNetworkOrSubnet]).
Proof.
  intros out invalid. subst out invalid. unfold resourceServerNetworkCreate.
  destruct (nwIDSet d) eqn:En, (snIDSet d) eqn:Es; cbn [andb orb negb ret fst snd].
  - split; [split; [now left|reflexivity]|]. split; [|reflexivity].
    intros _. split; [reflexivity|discriminate].
  - (* network_id alone *)
    assert (Hlen := attach_trace_length defaultMaxRetries client
              {| Server_ID := server_id d; Server_PrivateNet := [] |}
              {| Network_ID := network_id d |} (ParseIP (ip d))
              (map ParseIP (alias_ips d)) h).
    unfold bind.
    destruct (attachServerToNetwork _ _ _ _ _ _ h) as [[e|] h1]; cbn [snd] in Hlen.
    + cbn [ret fst snd]. split; [|split; [|discriminate]].
      * split; [intros ->; lia|]. intros [H|[H _]]; discriminate H.
      * intros [H|[H _]]; discriminate H.
    + read_length Hr.
      split; [|split; [|discriminate]].
      * split; [intros E; rewrite E in Hr; lia|]. intros [H|[H _]]; discriminate H.
      * intros [H|[H _]]; discriminate H.
  - (* subnet_id alone *)
    destruct (parseNetworkSubnetID (subnet_id d)) as [nid [e|]] eqn:Ep;
      cbn [ret fst snd].
    + split; [split; [intros _; right; split; [reflexivity|discriminate]|reflexivity]|].
      split; [|discriminate]. intros _. split; [reflexivity|discriminate].
    + assert (Hlen := attach_trace_length defaultMaxRetries client
                {| Server_ID := server_id d; Server_PrivateNet := [] |}
                {| Network_ID := nid |} (ParseIP (ip d))
                (map ParseIP (alias_ips d)) h).
      unfold bind.
      destruct (attachServerToNetwork _ _ _ _ _ _ h) as [[e|] h1]; cbn [snd] in Hlen.
      * cbn [ret fst snd]. split; [|split; [|discriminate]].
        -- split; [intros ->; lia|]. intros [H|[_ H]]; [discriminate H|now destruct H].
        -- intros [H|[_ H]]; [discriminate H|now destruct H].
      * read_length Hr.
        split; [|split; [|discriminate]].
        -- split; [intros E; rewrite E in Hr; lia|].
           intros [H|[_ H]]; [discriminate H|now destruct H].
        -- intros [H|[_ H]]; [discriminate H|now destruct H].
  - split; [split; [now left|reflexivity]|]. split; [|reflexivity].
    intros _. split; [reflexivity|discriminate].
Qed.

(** X18.  After a successful attach, create stores the generated identifier
    and reads back under it: the read fetches the very server and
    network that were attached.  When the cloud then shows the
    membership, the record is filled from it; when it does not show it
    yet, create still reports no error, with the identifier of the
    record emptied. *)
Theorem create_reads_back {IP : Type} (ParseIP : string -> IP)
    (IPString : IP -> string)
    (mergeStringSlice : list string -> list string -> list string)
    (setList : list string -> list string)
    (defaultMaxRetries : nat) (parseNetworkSubnetID : string -> Z * option error)
    (client : @Client IP) (d : ResourceData) (h : Trace) (s : Server) (n : Network) :
  let networkID :=
    if snIDSet d then fst (parseNetworkSubnetID (subnet_id d)) else network_id d in
  let srv : @Server IP := {| Server_ID := server_id d; Server_PrivateNet := [] |} in
  let nw := {| Network_ID := networkID |} in
  let id := generateServerNetworkID srv nw in
  let attached :=
    attachServerToNetwork defaultMaxRetries client srv nw (ParseIP (ip d))
      (map ParseIP (alias_ips d)) h in
  let h1 := CallServerGetByID (server_id d) :: snd attached in
  let h2 := CallNetworkGetByID networkID :: h1 in
  nwIDSet d <> snIDSet d ->
  (snIDSet d = true -> snd (parseNetworkSubnetID (subnet_id d)) = None) ->
  0 <= server_id d <= maxInt ->
  minInt <= networkID <= maxInt ->
  fst attached = None ->
  Server_GetByID client (snd attached) (server_id d) = (Some s, None) ->
  Network_GetByID client h1 networkID = (Some n, None) ->
  resourceServerNetworkCreate ParseIP IPString mergeStringSlice setList defaultMaxRetries
    parseNetworkSubnetID client d h
  = match findPrivateNet (Server_PrivateNet s) n with
    | Some pn =>
        (([], setServerNetworkSchema IPString mergeStringSlice setList
                (SetId (SetId d id) (generateServerNetworkID s n)) s n pn), h2)
    | None =>
        (([], SetId (SetId d id) ""), Log (WarnAttachmentNotFound id) :: h2)
    end.
Proof.
  intros networkID srv nw id attached h1 h2 Hone Hparse Hsid Hnid Hatt Hs Hn.
  assert (Hdec : decode id = Some (server_id d, networkID)).
  { pose proof (decode_printed (server_id d) networkID ltac:(unfold minInt; lia) Hnid) as D.
    replace (server_id d <? 0) with false in D by (symmetry; apply Z.ltb_ge; lia).
    exact D. }
  assert (Hread : resourceServerNetworkRead IPString mergeStringSlice setList client
                    (SetId d id) (snd attached)
                  = match findPrivateNet (Server_PrivateNet s) n with
                    | Some pn =>
                        (([], setServerNetworkSchema IPString mergeStringSlice setList
                                (SetId (SetId d id) (generateServerNetworkID s n)) s n pn), h2)
                    | None =>
                        (([], SetId (SetId d id) ""),
                         Log (WarnAttachmentNotFound id) :: h2)
                    end).
  { unfold resourceServerNetworkRead, bind. cbn [Id SetId].
    rewrite (lookup_decoded client id (snd attached) _ _ Hdec). cbv zeta.
    rewrite Hs. fold h1. rewrite Hn. cbn [err server network serverPrivateNet
                                          isInvalidServerNetworkID].
    destruct (findPrivateNet (Server_PrivateNet s) n); reflexivity. }
  unfold resourceServerNetworkCreate.
  destruct (nwIDSet d) eqn:En, (snIDSet d) eqn:Es; try (exfalso; apply Hone; reflexivity);
    cbn [andb orb negb].
  - unfold bind. fold srv. subst networkID. fold nw. fold attached.
    destruct attached as [e h'] eqn:Ea. cbn [fst snd] in *. subst e. exact Hread.
  - subst networkID. specialize (Hparse eq_refl).
    destruct (parseNetworkSubnetID (subnet_id d)) as [nid e]. cbn [fst snd] in *.
    subst e. unfold bind. fold srv. fold nw. fold attached.
    destruct attached as [e h'] eqn:Ea. cbn [fst snd] in *. subst e. exact Hread.
Qed.

(** X9.  Update on an attachment whose identifier decodes and whose server
    and network the cloud finds, with changed alias IPs: one change
    call for the parsed alias IPs of the record, on that server and
    network.  An error of the call, of whatever code, is reported at
    once; otherwise update waits for the action and reports a failed
    wait; in both cases the record stays as it was.  Only after a good
    wait does it go on to read. *)
Theorem update_on_resolved_attachment {IP : Type} (ParseIP : string -> IP)
    (IPString : IP -> string)
    (mergeStringSlice : list string -> list string -> list string)
    (setList : list string -> list string)
    (client : @Client IP) (d : ResourceData) (h : Trace)
    (serverID networkID : Z) (s : Server) (n : Network) :
  let h1 := CallNetworkGetByID networkID :: CallServerGetByID serverID :: h in
  let opts := {| ChangeAlias_Network := Some n;
                 ChangeAlias_AliasIPs := map ParseIP (alias_ips d) |} in
  let h2 := CallChangeAliasIPs (Some s) opts :: h1 in
  let answer := Server_ChangeAliasIPs client h1 (Some s) opts in
  let h3 := CallWaitForNetworkAction (fst answer) (Some n) :: h2 in
  decode (Id d) = Some (serverID, networkID) ->
  Server_GetByID client h serverID = (Some s, None) ->
  Network_GetByID client (CallServerGetByID serverID :: h) networkID = (Some n, None) ->
  alias_ips_changed d = true ->
  resourceServerNetworkUpdate ParseIP IPString mergeStringSlice setList client d h
  = match snd answer with
    | Some e => ((FromErr e, d), h2)
    | None =>
        match Action_Wait client h2 (fst answer) (Some n) with
        | Some e => ((FromErr e, d), h3)
        | None => resourceServerNetworkRead IPString mergeStringSlice setList client d h3
        end
    end.
Proof.
  intros h1 opts h2 answer h3 Hdec Hs Hn Hc.
  subst h3 answer h2. unfold resourceServerNetworkUpdate, bind.
  rewrite (lookup_decoded client (Id d) h _ _ Hdec). cbv zeta. rewrite Hs, Hn.
  cbn [err server network isInvalidServerNetworkID]. rewrite Hc.
  unfold ChangeAliasIPs, waitForNetworkAction. fold opts. fold h1.
  destruct (Server_ChangeAliasIPs client h1 (Some s) opts) as [a [e|]];
    cbn [fst snd]; [reflexivity|].
  destruct (Action_Wait client _ a (Some n)); reflexivity.
Qed.

(** * Concrete runs *)

(** Server 5 and network 100: "5-100" decodes to them. *)
Lemma decode_generateServerNetworkID_5_100 :
  decode (generateServerNetworkID server5 network100) = Some (5, 100).
Proof.
  apply (decode_generateServerNetworkID server5 network100);
    cbn [Server_ID Network_ID server5 network100]; unfold maxInt; lia.
Defined.

(** An identifier without a dash does not decode. *)
Lemma decode_fails_exactly_12 : decode "12" = None.
Proof.
  apply (proj2 (proj1 decode_fails_exactly "12")).
  right. left. reflexivity.
Defined.

(** "12-34-56": the sentinel, and server 12 fetched once. *)
Lemma lookup_decode_failure_12_34_56 :
  err (fst (lookupServerNetworkID (scriptedClient calm) "12-34-56" []))
  = Some errInvalidServerNetworkID /\
  snd (lookupServerNetworkID (scriptedClient calm) "12-34-56" [])
  = [CallServerGetByID 12].
Proof.
  pose proof (lookup_decode_failure (scriptedClient calm) "12-34-56" [] eq_refl)
    as (Herr & _ & _ & _ & Hsrv).
  split; [exact Herr|].
  exact (proj2 (Hsrv "12" "34-56" 12 eq_refl eq_refl eq_refl)).
Defined.

(** Server 7 and network 100 exist, server 7 is not attached. *)
Lemma lookup_absence_cases_7_100 :
  lookupServerNetworkID (scriptedClient calm) "7-100" []
  = ({| server := Some server7; network := Some network100;
        serverPrivateNet := None; err := None |},
     [CallNetworkGetByID 100; CallServerGetByID 7]).
Proof.
  apply (proj2 (proj2 (proj2
           (lookup_absence_cases (scriptedClient calm) "7-100" [] 7 100 eq_refl)))
           server7 network100 eq_refl eq_refl).
  intros pn [].
Defined.

(** Server 9 does not exist. *)
Lemma lookup_never_nil_without_error_9_100 :
  err (fst (lookupServerNetworkID (scriptedClient calm) "9-100" []))
  = Some errInvalidServerNetworkID.
Proof.
  apply (proj1 (proj1 lookup_never_nil_without_error
                  string (scriptedClient calm) "9-100" [])).
  left. reflexivity.
Defined.

(** Two conflicts, then a success: three calls and no error. *)
Lemma retry_policy_two_conflicts :
  let opts := {| Attach_Network := Some network100; Attach_IP := "10.0.0.2";
                 Attach_AliasIPs := ["10.0.0.5"] |} in
  retry 5 (attachAttempt (scriptedClient (busyThen 2 (Some action1, None)))
                         (Some server7) opts) (None, [])
  = (None, (Some action1, repeat (CallAttachToNetwork (Some server7) opts) 3)).
Proof.
  intros opts.
  apply (proj1 (proj1 (retry_policy (scriptedClient (busyThen 2 (Some action1, None)))
                                    5 2 None [])
                      (Some server7) opts
                      ltac:(intros [|[|j]] Hj; [reflexivity|reflexivity|lia]))).
  - lia.
  - reflexivity.
Defined.

(** Two conflicts, then "server already attached": success, no wait. *)
Lemma attach_already_attached_after_conflicts :
  let opts := {| Attach_Network := Some network100; Attach_IP := "10.0.0.2";
                 Attach_AliasIPs := ["10.0.0.5"] |} in
  attachServerToNetwork 5 (scriptedClient (busyThen 2 (None, Some alreadyAttached)))
    server5 network100 "10.0.0.2" ["10.0.0.5"] []
  = (None, Log (InfoAlreadyAttached 5 100)
             :: repeat (CallAttachToNetwork (Some server5) opts) 3).
Proof.
  intros opts.
  apply (proj1 (attach_already_attached 5
                  (scriptedClient (busyThen 2 (None, Some alreadyAttached)))
                  server5 network100 "10.0.0.2" ["10.0.0.5"] [] 2
                  ltac:(intros [|[|j]] Hj; [reflexivity|reflexivity|lia])
                  ltac:(lia))).
  reflexivity.
Defined.

(** One conflict, then "not found" on detach: success.  One lock,
    then "forbidden": the error is reported.  An accepted detach and a
    failed wait: the failure is reported. *)
Lemma delete_tolerates_gone_not_found :
  let d := declared "5-100" 5 false in
  let ev := CallDetachFromNetwork (Some server5) {| Detach_Network := Some network100 |} in
  resourceServerNetworkDelete 5 (scriptedClient (busyThen 1 (None, Some notFound))) d []
  = (([], d), [ev; ev; CallNetworkGetByID 100; CallServerGetByID 5]) /\
  resourceServerNetworkDelete 5 (scriptedClient (lockedThen 1 (None, Some forbidden))) d []
  = (([forbidden], d), [ev; ev; CallNetworkGetByID 100; CallServerGetByID 5]) /\
  resourceServerNetworkDelete 5 (scriptedClient calmButWaitFails) d []
  = (([waitFails], d),
     [CallWaitForNetworkAction (Some action1) (Some network100); ev;
      CallNetworkGetByID 100; CallServerGetByID 5]).
Proof.
  intros d ev. split; [|split].
  - apply (proj1 (proj2 (delete_tolerates_gone 5
                           (scriptedClient (busyThen 1 (None, Some notFound))) d []))
                 1%nat).
    + reflexivity.
    + intros [|j] Hj; [reflexivity|lia].
    + lia.
    + reflexivity.
  - apply (proj1 (proj2 (proj2 (proj2 (delete_tolerates_gone 5
                   (scriptedClient (lockedThen 1 (None, Some forbidden))) d []))))
                 1%nat forbidden).
    + reflexivity.
    + intros [|j] Hj; [reflexivity|lia].
    + lia.
    + reflexivity.
    + reflexivity.
    + reflexivity.
  - apply (proj1 (proj2 (proj2 (proj2 (proj2 (delete_tolerates_gone 5
                   (scriptedClient calmButWaitFails) d [])))))
                 0%nat (Some action1)).
    + reflexivity.
    + intros j Hj. lia.
    + lia.
    + reflexivity.
Defined.

(** ** Concrete runs of the further properties *)

(** A negative network identifier still decodes. *)
Lemma decode_generate_exact_negative_network :
  decode (generateServerNetworkID server5 {| Network_ID := -7 |}) = Some (5, -7).
Proof.
  apply (decode_generate_exact server5 {| Network_ID := -7 |});
    cbn [Server_ID Network_ID server5]; unfold minInt, maxInt; lia.
Defined.

(** The same identifier, the same server and network. *)
Lemma generateServerNetworkID_injective_5_100 :
  Server_ID server5 = Server_ID (IP := string) {| Server_ID := 5; Server_PrivateNet := [] |} /\
  Network_ID network100 = Network_ID network100.
Proof.
  apply (generateServerNetworkID_injective server5
           {| Server_ID := 5; Server_PrivateNet := [] |} network100 network100);
    cbn [Server_ID Network_ID server5 network100]; unfold minInt, maxInt;
    try lia; reflexivity.
Defined.

(** Server 5 is attached to network 100. *)
Lemma lookup_found_5_100 :
  lookupServerNetworkID (scriptedClient calm) "5-100" []
  = ({| server := Some server5; network := Some network100;
        serverPrivateNet := Some privateNet100; err := None |},
     [CallNetworkGetByID 100; CallServerGetByID 5]).
Proof.
  apply (lookup_found (scriptedClient calm) "5-100" [] 5 100 server5 network100);
    reflexivity.
Defined.

(** Server 8: the membership is the first of its two entries for
    network 100, behind the entry for network 200. *)
Lemma lookup_membership_belongs_8_100 :
  exists s n before rest,
    server (fst (lookupServerNetworkID (scriptedClient crowded) "8-100" [])) = Some s /\
    network (fst (lookupServerNetworkID (scriptedClient crowded) "8-100" [])) = Some n /\
    Server_PrivateNet s = (before ++ privateNet100 :: rest)%list /\
    Network_ID (PrivateNet_Network privateNet100) = Network_ID n /\
    forall q, In q before -> Network_ID (PrivateNet_Network q) <> Network_ID n.
Proof.
  apply (lookup_membership_belongs (scriptedClient crowded) "8-100" [] privateNet100).
  reflexivity.
Defined.

(** The scripted cloud never returns a network with an error. *)
Lemma Read_reports_no_error_calm :
  fst (fst (resourceServerNetworkRead (fun s => s) mergeSlices setOf (scriptedClient calm)
              (declared "9-100" 9 false) [])) = [].
Proof.
  apply (Read_reports_no_error (fun s => s) mergeSlices setOf (scriptedClient calm)).
  intros h' nid n e. cbn [scriptedClient Network_GetByID calm script_networks].
  unfold theNetworks. destruct (nid =? 100); discriminate.
Defined.

(** An update without a change. *)
Lemma idle_update_only_fetches_5_100 :
  filter isMutation
    (snd (resourceServerNetworkUpdate (fun s => s) (fun s => s) mergeSlices setOf
            (scriptedClient calm) (declared "5-100" 5 false) []))
  = [].
Proof.
  apply (proj2 (idle_update_only_fetches (fun s => s) (fun s => s) mergeSlices setOf
                  (scriptedClient calm) (declared "5-100" 5 false) [])).
  reflexivity.
Defined.

(** An identifier that does not decode. *)
Lemma Update_invalid_drops_abc :
  resourceServerNetworkUpdate (fun s => s) (fun s => s) mergeSlices setOf
    (scriptedClient calm) (declared "abc" 5 true) []
  = (([], SetId (declared "abc" 5 true) ""),
     [Log (WarnInvalidID "abc" (Some errInvalidServerNetworkID))]).
Proof.
  apply (Update_invalid_drops (fun s => s) (fun s => s) mergeSlices setOf
           (scriptedClient calm) (declared "abc" 5 true) []).
  reflexivity.
Defined.

(** A change that is accepted, and a wait that fails. *)
Lemma update_on_resolved_attachment_wait_fails :
  let d := declared "5-100" 5 true in
  let opts := {| ChangeAlias_Network := Some network100;
                 ChangeAlias_AliasIPs := ["10.0.0.5"; "10.0.0.6"] |} in
  resourceServerNetworkUpdate (fun s => s) (fun s => s) mergeSlices setOf
    (scriptedClient calmButWaitFails) d []
  = (([waitFails], d),
     [CallWaitForNetworkAction (Some action1) (Some network100);
      CallChangeAliasIPs (Some server5) opts;
      CallNetworkGetByID 100; CallServerGetByID 5]).
Proof.
  intros d opts.
  apply (update_on_resolved_attachment (fun s => s) (fun s => s) mergeSlices setOf
           (scriptedClient calmButWaitFails) d [] 5 100 server5 network100);
    reflexivity.
Defined.

(** An attach that is accepted at once. *)
Lemma attach_success_means_waited_calm :
  (exists h',
      snd (attachServerToNetwork 5 (scriptedClient calm) server7 network100
             "10.0.0.2" ["10.0.0.5"] [])
      = Log (InfoAlreadyAttached (Server_ID server7) (Network_ID network100)) :: h') \/
  (exists a h',
      snd (attachServerToNetwork 5 (scriptedClient calm) server7 network100
             "10.0.0.2" ["10.0.0.5"] [])
      = CallWaitForNetworkAction a (Some network100) :: h' /\
      Action_Wait (scriptedClient calm) h' a (Some network100) = None).
Proof.
  apply (attach_success_means_waited 5 (scriptedClient calm) server7 network100
           "10.0.0.2" ["10.0.0.5"] []).
  reflexivity.
Defined.

(** Two conflicts, then the attach is accepted and the wait ends well. *)
Lemma attach_accepted_waits_after_conflicts :
  let opts := {| Attach_Network := Some network100; Attach_IP := "10.0.0.2";
                 Attach_AliasIPs := ["10.0.0.5"] |} in
  attachServerToNetwork 5 (scriptedClient (busyThen 2 (Some action1, None)))
    server7 network100 "10.0.0.2" ["10.0.0.5"] []
  = (None,
     CallWaitForNetworkAction (Some action1) (Some network100)
       :: repeat (CallAttachToNetwork (Some server7) opts) 3).
Proof.
  intros opts.
  apply (attach_accepted_waits 5 (scriptedClient (busyThen 2 (Some action1, None)))
           server7 network100 "10.0.0.2" ["10.0.0.5"] [] 2 (Some action1)
           ltac:(intros [|[|j]] Hj; [reflexivity|reflexivity|lia])
           ltac:(lia) eq_refl).
Defined.

(** Nothing but conflicts: three tries, three calls, the conflict
    reported. *)
Lemma attach_exhausted_three_tries :
  let opts := {| Attach_Network := Some network100; Attach_IP := "10.0.0.2";
                 Attach_AliasIPs := ["10.0.0.5"] |} in
  attachServerToNetwork 3 (scriptedClient (busyThen 9 (Some action1, None)))
    server7 network100 "10.0.0.2" ["10.0.0.5"] []
  = (Some (Errorf "attach server to network" conflict),
     repeat (CallAttachToNetwork (Some server7) opts) 3).
Proof.
  intros opts.
  apply (attach_exhausted 2 (scriptedClient (busyThen 9 (Some action1, None)))
           server7 network100 "10.0.0.2" ["10.0.0.5"] [] conflict
           ltac:(intros [|[|[|j]]] Hj; [reflexivity|reflexivity|reflexivity|lia])
           eq_refl).
Defined.

(** One conflict, then the detach is accepted. *)
Lemma delete_accepted_waits_after_conflict :
  let d := declared "5-100" 5 false in
  let ev := CallDetachFromNetwork (Some server5) {| Detach_Network := Some network100 |} in
  resourceServerNetworkDelete 5 (scriptedClient (busyThen 1 (Some action1, None))) d []
  = (([], d),
     [CallWaitForNetworkAction (Some action1) (Some network100); ev; ev;
      CallNetworkGetByID 100; CallServerGetByID 5]).
Proof.
  intros d ev.
  apply (delete_accepted_waits 5 (scriptedClient (busyThen 1 (Some action1, None)))
           d [] 1 (Some action1) eq_refl
           ltac:(intros [|j] Hj; [reflexivity|lia]) ltac:(lia) eq_refl).
Defined.

(** Nothing but conflicts on detach: two tries, the conflict reported. *)
Lemma delete_exhausted_two_tries :
  let d := declared "5-100" 5 false in
  let ev := CallDetachFromNetwork (Some server5) {| Detach_Network := Some network100 |} in
  resourceServerNetworkDelete 2 (scriptedClient (busyThen 9 (Some action1, None))) d []
  = (([conflict], d), [ev; ev; CallNetworkGetByID 100; CallServerGetByID 5]).
Proof.
  intros d ev.
  apply (delete_exhausted 1 (scriptedClient (busyThen 9 (Some action1, None)))
           d [] conflict eq_refl
           ltac:(intros [|[|j]] Hj; [reflexivity|reflexivity|lia]) eq_refl).
Defined.

(** Create through a subnet identifier: attach, then read back "5-100". *)
Lemma create_reads_back_subnet :
  let d := declaredSubnet 5 "100-10.0.0.0/24" in
  fst (resourceServerNetworkCreate (fun s => s) (fun s => s) mergeSlices setOf 5 parseSubnet
         (scriptedClient calm) d [])
  = ([], {| Id := "5-100"; network_id := 0; subnet_id := "100-10.0.0.0/24";
            server_id := 5; ip := "10.0.0.2"; alias_ips := ["10.0.0.5"];
            mac_address := "86:00:00:2a:7b:01"; alias_ips_changed := false |}).
Proof.
  intros d.
  rewrite (create_reads_back (fun s => s) (fun s => s) mergeSlices setOf 5 parseSubnet
             (scriptedClient calm) d [] server5 network100).
  - reflexivity.
  - discriminate.
  - reflexivity.
  - cbn [server_id d declaredSubnet]. unfold maxInt. lia.
  - vm_compute. split; discriminate.
  - reflexivity.
  - reflexivity.
  - reflexivity.
Defined.

(** Create with both fields set is refused before any call. *)
Lemma create_validates_before_calling_both_set :
  let d := {| Id := ""; network_id := 100; subnet_id := "100-10.0.0.0/24";
              server_id := 5; ip := ""; alias_ips := []; mac_address := "";
              alias_ips_changed := false |} in
  resourceServerNetworkCreate (fun s => s) (fun s => s) mergeSlices setOf 5 parseSubnet
    (scriptedClient calm) d []
  = (([errEitherNetworkOrSubnet], d), []).
Proof.
  intros d.
  pose proof (create_validates_before_calling (fun s => s) (fun s => s) mergeSlices setOf 5
                parseSubnet (scriptedClient calm) d []) as (Htrace & Hrec & Hmsg).
  destruct (resourceServerNetworkCreate _ _ _ _ _ _ _ d []) as [[diags d'] h'].
  cbn [fst snd] in Htrace, Hrec, Hmsg.
  rewrite (proj2 Htrace (or_introl eq_refl)).
  rewrite (proj1 (Hrec (or_introl eq_refl))).
  rewrite (Hmsg eq_refl). reflexivity.
Defined.
